(** * TaskProgressMonitor: a shallow embedding of [TaskProgressMonitor.py]

    The monitor object, the [rich.progress.Progress] task table it drives,
    the bounded [collections.deque] behind the history panel and the log
    file are modelled as one explicit state; every method is a computation
    in a small state-and-exception monad, so that what a raised exception
    leaves behind in the object is part of the model.

    Numbers: Python [int] is [Z]; the floats produced by [step / total] are
    taken exactly, as rationals [Q], and compared with [==] ([Qeq]). *)

From Stdlib Require Import ZArith QArith Lia Ascii String.
From stdpp Require Import base numbers list strings gmap pretty.

Local Open Scope Z_scope.

(** ** Python values *)

(** The exceptions the module can raise; [KeyError] carries the key that
    was looked up in the task table. *)
Inductive exn : Type :=
| RuntimeError (msg : string)
| ValueError (msg : string)
| KeyError (key : option nat)
| ZeroDivisionError
| TypeError.

Definition nl : string := String "010"%char "".

(** [sep.join(lines)] *)
Definition join (sep : string) (lines : list string) : string :=
  String.concat sep lines.

(** [l[start:]] with Python's treatment of negative and out-of-range
    indices. *)
Definition slice_from {A : Type} (start : Z) (l : list A) : list A :=
  let len := Z.of_nat (length l) in
  let i := if start <? 0 then Z.max 0 (start + len) else Z.min start len in
  drop (Z.to_nat i) l.

(** [a / b] on two [int]s (true division). *)
Definition truediv (a b : Z) : exn + Q :=
  if b =? 0 then inl ZeroDivisionError else inr (inject_Z a / inject_Z b)%Q.

(** Truthiness of [None | TaskID]: [None] and the id [0] are falsy. *)
Definition truthy (h : option nat) : bool :=
  match h with
  | Some (S _) => true
  | _ => false
  end.

(** *** [datetime] *)

Record datetime : Type := mkDatetime {
  year : nat; month : nat; day : nat;
  hour : nat; minute : nat; second : nat; microsecond : nat
}.


(** [n] in decimal, left-padded with zeros to [width] characters. *)
Definition zfill (width : nat) (n : nat) : string :=
  let d := pretty n in
  String.concat "" (replicate (width - String.length d) "0"%string) +:+ d.

(** [dt.isoformat(timespec='seconds')] *)
Definition isoformat_seconds (dt : datetime) : string :=
  zfill 4 (year dt) +:+ "-" +:+ zfill 2 (month dt) +:+ "-" +:+ zfill 2 (day dt)
  +:+ "T" +:+ zfill 2 (hour dt) +:+ ":" +:+ zfill 2 (minute dt)
  +:+ ":" +:+ zfill 2 (second dt).

(** [dt.isoformat()]: microseconds are printed when they are not zero. *)
Definition isoformat (dt : datetime) : string :=
  match microsecond dt with
  | O => isoformat_seconds dt
  | us => isoformat_seconds dt +:+ "." +:+ zfill 6 us
  end.

(** *** Number formatting *)

(** Nearest integer to [q], ties to even. *)
Definition round_half_even (q : Q) : Z :=
  let n := Qnum q in
  let d := Zpos (Qden q) in
  let a := n / d in
  let r := n mod d in
  match 2 * r ?= d with
  | Lt => a
  | Gt => a + 1
  | Eq => if Z.even a then a else a + 1
  end.

(** [f"{q:.2f}"] *)
Definition format_2f (q : Q) : string :=
  let m := Z.abs (round_half_even (q * 100)) in
  (if Qnum q <? 0 then "-"%string else ""%string)
  +:+ pretty (m / 100) +:+ "." +:+ zfill 2 (Z.to_nat (m mod 100)).

(** ** [collections.deque(maxlen=...)] *)

Record deque : Type := mkDeque {
  items : list string;
  maxlen : nat
}.

(** [deque(maxlen=n)]: a negative bound is refused. *)
Definition deque_new (n : Z) : exn + deque :=
  if n <? 0 then inl (ValueError "maxlen must be non-negative")
  else inr {| items := []; maxlen := Z.to_nat n |}.

(** [d.append(x)]: the item goes to the right end, then the left end is
    dropped if the bound is exceeded. *)
Definition deque_append (x : string) (d : deque) : deque :=
  let l := items d ++ [x] in
  {| items := if (maxlen d <? length l)%nat then tail l else l;
     maxlen := maxlen d |}.

(** ** [rich.progress.Progress] *)

Abbreviation TaskID := nat (only parsing).

Record Task : Type := mkTask {
  task_description : string;
  task_total : Z;
  task_completed : Q;
  task_info : string
}.

Record Progress : Type := mkProgress {
  _tasks : gmap nat Task;
  _task_index : TaskID
}.

(** [Progress()]: no task, ids are handed out from [0]. *)
Definition Progress_new : Progress :=
  {| _tasks := ∅; _task_index := 0%nat |}.

(** [add_task(description, total=..., completed=..., info=...)] *)
Definition add_task (description : string) (total : Z) (completed : Q)
    (info : string) (p : Progress) : TaskID * Progress :=
  let t := {| task_description := description; task_total := total;
              task_completed := completed; task_info := info |} in
  (_task_index p,
   {| _tasks := <[_task_index p := t]> (_tasks p);
      _task_index := S (_task_index p) |}).

(** [remove_task(task_id)] is [del self._tasks[task_id]]. *)
Definition remove_task (task_id : TaskID) (p : Progress) : exn + Progress :=
  match _tasks p !! task_id with
  | None => inl (KeyError (Some task_id))
  | Some _ => inr {| _tasks := delete task_id (_tasks p);
                     _task_index := _task_index p |}
  end.

(** [update(task_id, advance=..., **fields)]; the monitor passes the
    handle it holds, which may be [None]. *)
Definition update (task_id : option TaskID) (advance : Q)
    (info : option string) (p : Progress) : exn + Progress :=
  match task_id with
  | None => inl (KeyError None)
  | Some i =>
      match _tasks p !! i with
      | None => inl (KeyError (Some i))
      | Some t =>
          let t' := {| task_description := task_description t;
                       task_total := task_total t;
                       task_completed := (task_completed t + advance)%Q;
                       task_info := default (task_info t) info |} in
          inr {| _tasks := <[i := t']> (_tasks p);
                 _task_index := _task_index p |}
      end
  end.

(** ** The monitor and its surroundings *)

(** What the static panel of the layout shows: the empty string set by
    the constructor, or a [TailText] over the monitor's own deque. *)
Inductive static_panel : Type :=
| PanelEmpty
| PanelTail.

(** A piece of text written to the log file or printed.  The elapsed
    time [str(end_time - start_time)] is kept as the two instants. *)
Inductive chunk : Type :=
| Str (text : string)
| Elapse (before : string) (end_time start_time : datetime) (after : string).

Record State : Type := mkState {
  (* attributes of the monitor *)
  progress : Progress;
  static_content : deque;
  layout_live_info : string;
  layout_static_info : static_panel;
  live : bool;
  overall_task : option TaskID;
  subtask : option TaskID;
  _live_started : bool;
  _log_file : option string;
  start_time : option datetime;
  end_time : option datetime;
  _overall_total : Z;
  _overall_completed : Q;
  _subtask_total : Z;
  _subtask_completed : Z;
  filename : string;
  (* the world around it *)
  clock : nat -> datetime;
  ticks : nat;
  log_file_contents : list chunk;
  stdout : list chunk
}.

Definition set_progress (v : Progress) (s : State) : State :=
  {| progress := v; static_content := static_content s;
     layout_live_info := layout_live_info s; layout_static_info := layout_static_info s;
     live := live s; overall_task := overall_task s; subtask := subtask s;
     _live_started := _live_started s; _log_file := _log_file s;
     start_time := start_time s; end_time := end_time s;
     _overall_total := _overall_total s; _overall_completed := _overall_completed s;
     _subtask_total := _subtask_total s; _subtask_completed := _subtask_completed s;
     filename := filename s; clock := clock s; ticks := ticks s;
     log_file_contents := log_file_contents s; stdout := stdout s |}.

Definition set_static_content (v : deque) (s : State) : State :=
  {| progress := progress s; static_content := v; layout_live_info := layout_live_info s;
     layout_static_info := layout_static_info s; live := live s;
     overall_task := overall_task s; subtask := subtask s;
     _live_started := _live_started s; _log_file := _log_file s;
     start_time := start_time s; end_time := end_time s;
     _overall_total := _overall_total s; _overall_completed := _overall_completed s;
     _subtask_total := _subtask_total s; _subtask_completed := _subtask_completed s;
     filename := filename s; clock := clock s; ticks := ticks s;
     log_file_contents := log_file_contents s; stdout := stdout s |}.

Definition set_layout_live_info (v : string) (s : State) : State :=
  {| progress := progress s; static_content := static_content s; layout_live_info := v;
     layout_static_info := layout_static_info s; live := live s;
     overall_task := overall_task s; subtask := subtask s;
     _live_started := _live_started s; _log_file := _log_file s;
     start_time := start_time s; end_time := end_time s;
     _overall_total := _overall_total s; _overall_completed := _overall_completed s;
     _subtask_total := _subtask_total s; _subtask_completed := _subtask_completed s;
     filename := filename s; clock := clock s; ticks := ticks s;
     log_file_contents := log_file_contents s; stdout := stdout s |}.

Definition set_layout_static_info (v : static_panel) (s : State) : State :=
  {| progress := progress s; static_content := static_content s;
     layout_live_info := layout_live_info s; layout_static_info := v; live := live s;
     overall_task := overall_task s; subtask := subtask s;
     _live_started := _live_started s; _log_file := _log_file s;
     start_time := start_time s; end_time := end_time s;
     _overall_total := _overall_total s; _overall_completed := _overall_completed s;
     _subtask_total := _subtask_total s; _subtask_completed := _subtask_completed s;
     filename := filename s; clock := clock s; ticks := ticks s;
     log_file_contents := log_file_contents s; stdout := stdout s |}.

Definition set_live (v : bool) (s : State) : State :=
  {| progress := progress s; static_content := static_content s;
     layout_live_info := layout_live_info s; layout_static_info := layout_static_info s;
     live := v; overall_task := overall_task s; subtask := subtask s;
     _live_started := _live_started s; _log_file := _log_file s;
     start_time := start_time s; end_time := end_time s;
     _overall_total := _overall_total s; _overall_completed := _overall_completed s;
     _subtask_total := _subtask_total s; _subtask_completed := _subtask_completed s;
     filename := filename s; clock := clock s; ticks := ticks s;
     log_file_contents := log_file_contents s; stdout := stdout s |}.

Definition set_overall_task (v : option TaskID) (s : State) : State :=
  {| progress := progress s; static_content := static_content s;
     layout_live_info := layout_live_info s; layout_static_info := layout_static_info s;
     live := live s; overall_task := v; subtask := subtask s;
     _live_started := _live_started s; _log_file := _log_file s;
     start_time := start_time s; end_time := end_time s;
     _overall_total := _overall_total s; _overall_completed := _overall_completed s;
     _subtask_total := _subtask_total s; _subtask_completed := _subtask_completed s;
     filename := filename s; clock := clock s; ticks := ticks s;
     log_file_contents := log_file_contents s; stdout := stdout s |}.

Definition set_subtask (v : option TaskID) (s : State) : State :=
  {| progress := progress s; static_content := static_content s;
     layout_live_info := layout_live_info s; layout_static_info := layout_static_info s;
     live := live s; overall_task := overall_task s; subtask := v;
     _live_started := _live_started s; _log_file := _log_file s;
     start_time := start_time s; end_time := end_time s;
     _overall_total := _overall_total s; _overall_completed := _overall_completed s;
     _subtask_total := _subtask_total s; _subtask_completed := _subtask_completed s;
     filename := filename s; clock := clock s; ticks := ticks s;
     log_file_contents := log_file_contents s; stdout := stdout s |}.

Definition set__live_started (v : bool) (s : State) : State :=
  {| progress := progress s; static_content := static_content s;
     layout_live_info := layout_live_info s; layout_static_info := layout_static_info s;
     live := live s; overall_task := overall_task s; subtask := subtask s;
     _live_started := v; _log_file := _log_file s; start_time := start_time s;
     end_time := end_time s; _overall_total := _overall_total s;
     _overall_completed := _overall_completed s; _subtask_total := _subtask_total s;
     _subtask_completed := _subtask_completed s; filename := filename s; clock := clock s;
     ticks := ticks s; log_file_contents := log_file_contents s; stdout := stdout s |}.

Definition set__log_file (v : option string) (s : State) : State :=
  {| progress := progress s; static_content := static_content s;
     layout_live_info := layout_live_info s; layout_static_info := layout_static_info s;
     live := live s; overall_task := overall_task s; subtask := subtask s;
     _live_started := _live_started s; _log_file := v; start_time := start_time s;
     end_time := end_time s; _overall_total := _overall_total s;
     _overall_completed := _overall_completed s; _subtask_total := _subtask_total s;
     _subtask_completed := _subtask_completed s; filename := filename s; clock := clock s;
     ticks := ticks s; log_file_contents := log_file_contents s; stdout := stdout s |}.

Definition set_start_time (v : option datetime) (s : State) : State :=
  {| progress := progress s; static_content := static_content s;
     layout_live_info := layout_live_info s; layout_static_info := layout_static_info s;
     live := live s; overall_task := overall_task s; subtask := subtask s;
     _live_started := _live_started s; _log_file := _log_file s; start_time := v;
     end_time := end_time s; _overall_total := _overall_total s;
     _overall_completed := _overall_completed s; _subtask_total := _subtask_total s;
     _subtask_completed := _subtask_completed s; filename := filename s; clock := clock s;
     ticks := ticks s; log_file_contents := log_file_contents s; stdout := stdout s |}.

Definition set_end_time (v : option datetime) (s : State) : State :=
  {| progress := progress s; static_content := static_content s;
     layout_live_info := layout_live_info s; layout_static_info := layout_static_info s;
     live := live s; overall_task := overall_task s; subtask := subtask s;
     _live_started := _live_started s; _log_file := _log_file s;
     start_time := start_time s; end_time := v; _overall_total := _overall_total s;
     _overall_completed := _overall_completed s; _subtask_total := _subtask_total s;
     _subtask_completed := _subtask_completed s; filename := filename s; clock := clock s;
     ticks := ticks s; log_file_contents := log_file_contents s; stdout := stdout s |}.

Definition set__overall_total (v : Z) (s : State) : State :=
  {| progress := progress s; static_content := static_content s;
     layout_live_info := layout_live_info s; layout_static_info := layout_static_info s;
     live := live s; overall_task := overall_task s; subtask := subtask s;
     _live_started := _live_started s; _log_file := _log_file s;
     start_time := start_time s; end_time := end_time s; _overall_total := v;
     _overall_completed := _overall_completed s; _subtask_total := _subtask_total s;
     _subtask_completed := _subtask_completed s; filename := filename s; clock := clock s;
     ticks := ticks s; log_file_contents := log_file_contents s; stdout := stdout s |}.

Definition set__overall_completed (v : Q) (s : State) : State :=
  {| progress := progress s; static_content := static_content s;
     layout_live_info := layout_live_info s; layout_static_info := layout_static_info s;
     live := live s; overall_task := overall_task s; subtask := subtask s;
     _live_started := _live_started s; _log_file := _log_file s;
     start_time := start_time s; end_time := end_time s;
     _overall_total := _overall_total s; _overall_completed := v;
     _subtask_total := _subtask_total s; _subtask_completed := _subtask_completed s;
     filename := filename s; clock := clock s; ticks := ticks s;
     log_file_contents := log_file_contents s; stdout := stdout s |}.

Definition set__subtask_total (v : Z) (s : State) : State :=
  {| progress := progress s; static_content := static_content s;
     layout_live_info := layout_live_info s; layout_static_info := layout_static_info s;
     live := live s; overall_task := overall_task s; subtask := subtask s;
     _live_started := _live_started s; _log_file := _log_file s;
     start_time := start_time s; end_time := end_time s;
     _overall_total := _overall_total s; _overall_completed := _overall_completed s;
     _subtask_total := v; _subtask_completed := _subtask_completed s;
     filename := filename s; clock := clock s; ticks := ticks s;
     log_file_contents := log_file_contents s; stdout := stdout s |}.

Definition set__subtask_completed (v : Z) (s : State) : State :=
  {| progress := progress s; static_content := static_content s;
     layout_live_info := layout_live_info s; layout_static_info := layout_static_info s;
     live := live s; overall_task := overall_task s; subtask := subtask s;
     _live_started := _live_started s; _log_file := _log_file s;
     start_time := start_time s; end_time := end_time s;
     _overall_total := _overall_total s; _overall_completed := _overall_completed s;
     _subtask_total := _subtask_total s; _subtask_completed := v; filename := filename s;
     clock := clock s; ticks := ticks s; log_file_contents := log_file_contents s;
     stdout := stdout s |}.

Definition set_ticks (v : nat) (s : State) : State :=
  {| progress := progress s; static_content := static_content s;
     layout_live_info := layout_live_info s; layout_static_info := layout_static_info s;
     live := live s; overall_task := overall_task s; subtask := subtask s;
     _live_started := _live_started s; _log_file := _log_file s;
     start_time := start_time s; end_time := end_time s;
     _overall_total := _overall_total s; _overall_completed := _overall_completed s;
     _subtask_total := _subtask_total s; _subtask_completed := _subtask_completed s;
     filename := filename s; clock := clock s; ticks := v;
     log_file_contents := log_file_contents s; stdout := stdout s |}.

Definition set_log_file_contents (v : list chunk) (s : State) : State :=
  {| progress := progress s; static_content := static_content s;
     layout_live_info := layout_live_info s; layout_static_info := layout_static_info s;
     live := live s; overall_task := overall_task s; subtask := subtask s;
     _live_started := _live_started s; _log_file := _log_file s;
     start_time := start_time s; end_time := end_time s;
     _overall_total := _overall_total s; _overall_completed := _overall_completed s;
     _subtask_total := _subtask_total s; _subtask_completed := _subtask_completed s;
     filename := filename s; clock := clock s; ticks := ticks s; log_file_contents := v;
     stdout := stdout s |}.

Definition set_stdout (v : list chunk) (s : State) : State :=
  {| progress := progress s; static_content := static_content s;
     layout_live_info := layout_live_info s; layout_static_info := layout_static_info s;
     live := live s; overall_task := overall_task s; subtask := subtask s;
     _live_started := _live_started s; _log_file := _log_file s;
     start_time := start_time s; end_time := end_time s;
     _overall_total := _overall_total s; _overall_completed := _overall_completed s;
     _subtask_total := _subtask_total s; _subtask_completed := _subtask_completed s;
     filename := filename s; clock := clock s; ticks := ticks s;
     log_file_contents := log_file_contents s; stdout := v |}.

(** ** The state-and-exception monad

    A method either returns a value or raises; in both cases it leaves a
    state behind, since Python does not roll back the mutations made
    before a [raise]. *)

Inductive result (A : Type) : Type :=
| Ok (a : A) (s : State)
| Raise (e : exn) (s : State).
Arguments Ok {A} a s.
Arguments Raise {A} e s.

Definition M (A : Type) : Type := State -> result A.

#[export] Instance M_ret : MRet M := fun A a s => Ok a s.
#[export] Instance M_bind : MBind M := fun A B f m s =>
  match m s with
  | Ok a s' => f a s'
  | Raise e s' => Raise e s'
  end.

Definition raise {A : Type} (e : exn) : M A := fun s => Raise e s.
Definition gets {A : Type} (f : State -> A) : M A := fun s => Ok (f s) s.
Definition modify (f : State -> State) : M unit := fun s => Ok tt (f s).

(** The state a computation leaves behind, whatever its outcome. *)
Definition state_of {A : Type} (r : result A) : State :=
  match r with
  | Ok _ s => s
  | Raise _ s => s
  end.

Definition raised {A : Type} (r : result A) : option exn :=
  match r with
  | Ok _ _ => None
  | Raise e _ => Some e
  end.

(** Running an operation of [self.progress]. *)
Definition on_progress (f : Progress -> exn + Progress) : M unit := fun s =>
  match f (progress s) with
  | inl e => Raise e s
  | inr p => Ok tt (set_progress p s)
  end.

(** [datetime.now()]: the next reading of the clock. *)
Definition now : M datetime := fun s =>
  Ok (clock s (ticks s)) (set_ticks (S (ticks s)) s).

(** [self._log_file.write(text)] *)
Definition file_write (c : chunk) : M unit :=
  modify (fun s => set_log_file_contents (log_file_contents s ++ [c]) s).

(** [print(text)] *)
Definition print (c : chunk) : M unit :=
  modify (fun s => set_stdout (stdout s ++ [c]) s).

(** [str(self.end_time - self.start_time)] between two strings; the
    subtraction needs both instants. *)
Definition elapse (before after : string) : M chunk := fun s =>
  match end_time s, start_time s with
  | Some e, Some b => Ok (Elapse before e b after) s
  | _, _ => Raise TypeError s
  end.

(** [if h: body], for a handle [h]. *)
Definition when_truthy (h : option TaskID) (body : TaskID -> M unit) : M unit :=
  match h with
  | Some (S n) => body (S n)
  | _ => mret tt
  end.

Definition not_started : exn := RuntimeError "Monitor must be started first".

(** ** [TaskProgressMonitor] *)

Module TaskProgressMonitor.

(** [__init__]; the titles only decorate the panels and are not kept.
    [filename] is the path of the log file, [clock] the readings that
    [datetime.now()] will return.  Creating directories and opening the
    file are taken to succeed; [live.refresh()] repaints the screen and
    leaves the state alone, so it does not show below. *)
Definition __init__ (filename : string) (max_static_lines : Z)
    (clock : nat -> datetime) : exn + State :=
  match deque_new max_static_lines with
  | inl e => inl e
  | inr d =>
      inr {| progress := Progress_new;
             static_content := d;
             layout_live_info := "Waiting for first update...";
             layout_static_info := PanelEmpty;
             live := false;
             overall_task := None;
             subtask := None;
             _live_started := false;
             _log_file := None;
             start_time := None;
             end_time := None;
             _overall_total := 0;
             _overall_completed := 0;
             _subtask_total := 0;
             _subtask_completed := 0;
             filename := filename;
             clock := clock;
             ticks := 0;
             log_file_contents := [];
             stdout := [] |}
  end.

Definition start : M unit :=
  started ← gets _live_started;
  if started : bool then mret tt
  else
    modify (fun s => set__log_file (Some (filename s)) s);;
    t ← now;
    file_write (Str ("================= Log started at " +:+ isoformat t
                     +:+ " =================" +:+ nl));;
    modify (set_live true);;
    modify (set__live_started true);;
    t ← now;
    modify (set_start_time (Some t)).

Definition complete : M unit :=
  started ← gets _live_started;
  if negb started then mret tt
  else
    modify (set_layout_live_info "[bold green]All Tasks Finished![/]");;
    h ← gets subtask;
    when_truthy h (fun id =>
      on_progress (remove_task id);;
      modify (set_subtask None));;
    h ← gets overall_task;
    when_truthy h (fun id =>
      on_progress (remove_task id);;
      modify (set_overall_task None)).

Definition stop (success : bool) : M unit :=
  started ← gets _live_started;
  if negb started then mret tt
  else
    complete;;
    modify (set_live false);;
    t ← now;
    modify (set_end_time (Some t));;
    content ← gets static_content;
    print (Str (join nl (items content)));;
    f ← gets _log_file;
    (if f is Some _ then
       t ← now;
       file_write (Str ("================= Task completed at " +:+ isoformat t
                        +:+ " =================" +:+ nl));;
       c ← elapse "================= Time Elapse: " (" =================" +:+ nl);
       file_write c;;
       modify (set__log_file None)
     else mret tt);;
    print (Str (if success then "[bold green]✓ Task Completed Successfully[/]"
                else "[bold red]✗ Task Failed[/]"));;
    c ← elapse "[bold yellow] Time Elapse: " "[/]";
    print c;;
    modify (set__live_started false).

Definition init_overall_task (title : string) (total_phases : Z)
    (start_phase : Z) : M unit :=
  started ← gets _live_started;
  if negb started then raise not_started
  else
    h ← gets overall_task;
    when_truthy h (fun id => on_progress (remove_task id));;
    p ← gets progress;
    let '(id, p') := add_task ("[cyan]" +:+ title) total_phases
                       (inject_Z start_phase) "" p in
    modify (set_progress p');;
    modify (set_overall_task (Some id));;
    modify (set__overall_total total_phases);;
    modify (set__overall_completed (inject_Z start_phase)).

Definition init_subtask (title : string) (total_tasks : Z) : M unit :=
  started ← gets _live_started;
  if negb started then raise not_started
  else if total_tasks <=? 0
  then raise (ValueError "total_tasks must be a positive integer")
  else
    h ← gets subtask;
    when_truthy h (fun id => on_progress (remove_task id));;
    p ← gets progress;
    let '(id, p') := add_task ("[green]" +:+ title) total_tasks 0%Q "" p in
    modify (set_progress p');;
    modify (set_subtask (Some id));;
    modify (set__subtask_total total_tasks);;
    modify (set__subtask_completed 0).

Definition update_progress (step : Z) (info : string) : M unit :=
  started ← gets _live_started;
  if negb started then raise not_started
  else
    h ← gets subtask;
    on_progress (update h (inject_Z step) (Some info));;
    total ← gets _subtask_total;
    match truediv step total with
    | inl e => raise e
    | inr total_advance =>
        h ← gets overall_task;
        on_progress (update h total_advance None);;
        modify (fun s => set__subtask_completed (_subtask_completed s + step) s);;
        modify (fun s => set__overall_completed
                           (_overall_completed s + total_advance)%Q s)
    end.

(** The line [_log_to_file] builds, without its final newline. *)
Definition log_line (timestamp : datetime) (message : string) (s : State) : string :=
  let task_progress := format_2f (_overall_completed s) +:+ "/"
                       +:+ pretty (_overall_total s) in
  let subtask_progress := pretty (_subtask_completed s) +:+ "/"
                          +:+ pretty (_subtask_total s) in
  isoformat_seconds timestamp +:+ " | " +:+ task_progress +:+ " | "
  +:+ subtask_progress +:+ " | " +:+ message.

Definition _log_to_file (message : string) : M unit :=
  f ← gets _log_file;
  if f is Some _ then
    timestamp ← now;
    line ← gets (log_line timestamp message);
    file_write (Str (line +:+ nl))
  else mret tt.

Definition update_live_info (info : string) : M unit :=
  started ← gets _live_started;
  if negb started then raise not_started
  else
    modify (set_layout_live_info info);;
    _log_to_file info.

Definition update_static_info (info : string) : M unit :=
  started ← gets _live_started;
  if negb started then raise not_started
  else
    modify (fun s => set_static_content (deque_append info (static_content s)) s);;
    modify (set_layout_static_info PanelTail);;
    _log_to_file info.



End TaskProgressMonitor.

(** ** [TailText] *)

Module TailText.

(** The lines [__rich_console__] keeps, for the [options.height] it is
    given; [max(1, None)] is a [TypeError]. *)
Definition display_lines (text_deque : deque) (height : option Z)
    : exn + list string :=
  match height with
  | None => inl TypeError
  | Some h =>
      let max_lines := Z.max 1 h in
      inr (slice_from (- max_lines) (items text_deque))
  end.

(** The text it yields. *)
Definition __rich_console__ (text_deque : deque) (height : option Z)
    : exn + string :=
  match display_lines text_deque height with
  | inl e => inl e
  | inr display_lines => inr (join nl display_lines)
  end.

End TailText.

(** ** Sessions: sequences of public calls *)

(** The public methods; [__enter__] is [Start] and [__exit__] is [Stop]
    with [success] telling whether the body raised. *)
Inductive op : Type :=
| Start
| Stop (success : bool)
| Complete
| InitOverallTask (title : string) (total_phases start_phase : Z)
| InitSubtask (title : string) (total_tasks : Z)
| UpdateProgress (step : Z) (info : string)
| UpdateLiveInfo (info : string)
| UpdateStaticInfo (info : string).

Definition call (o : op) : M unit :=
  match o with
  | Start => TaskProgressMonitor.start
  | Stop success => TaskProgressMonitor.stop success
  | Complete => TaskProgressMonitor.complete
  | InitOverallTask title total_phases start_phase =>
      TaskProgressMonitor.init_overall_task title total_phases start_phase
  | InitSubtask title total_tasks =>
      TaskProgressMonitor.init_subtask title total_tasks
  | UpdateProgress step info => TaskProgressMonitor.update_progress step info
  | UpdateLiveInfo info => TaskProgressMonitor.update_live_info info
  | UpdateStaticInfo info => TaskProgressMonitor.update_static_info info
  end.

(** A caller that goes on after an exception keeps the object as the
    failed call left it. *)
Fixpoint run (ops : list op) (s : State) : State :=
  match ops with
  | [] => s
  | o :: ops => run ops (state_of (call o s))
  end.

(** The outcomes of the calls of a session, in order. *)
Fixpoint outcomes (ops : list op) (s : State) : list (option exn) :=
  match ops with
  | [] => []
  | o :: ops => raised (call o s) :: outcomes ops (state_of (call o s))
  end.

(** The states a monitor can be in: built by the constructor, then
    driven by any calls. *)
Definition reachable (s : State) : Prop :=
  ∃ filename max_static_lines clock s0 ops,
    TaskProgressMonitor.__init__ filename max_static_lines clock = inr s0
    ∧ s = run ops s0.

(** A run of [update_progress] calls, stopping at the first exception. *)
Fixpoint advance_all (steps : list (Z * string)) : M unit :=
  match steps with
  | [] => mret tt
  | (step, info) :: steps =>
      TaskProgressMonitor.update_progress step info;; advance_all steps
  end.

Definition sum_steps (steps : list (Z * string)) : Z :=
  foldr (fun x acc => x.1 + acc) 0 steps.

(** Pushing lines into a deque, left to right. *)
Definition push_all (lines : list string) (d : deque) : deque :=
  foldl (fun d x => deque_append x d) d lines.

(** The four progress figures the monitor keeps next to the task table. *)
Definition counters (s : State) : Z * Q * Z * Z :=
  (_overall_total s, _overall_completed s, _subtask_total s, _subtask_completed s).

(** ** Well-formed states *)

(** The handles the monitor holds name tasks of the table, every task of
    the table was handed out before, and the two handles are different. *)
Record handles_ok (p : Progress) (overall sub : option TaskID) : Prop := mkHandlesOk {
  ho_overall : ∀ i, overall = Some i → is_Some (_tasks p !! i);
  ho_subtask : ∀ i, sub = Some i → is_Some (_tasks p !! i);
  ho_fresh : ∀ i, is_Some (_tasks p !! i) → (i < _task_index p)%nat;
  ho_distinct : ∀ i j, overall = Some i → sub = Some j → i ≠ j
}.

Record wf (s : State) : Prop := mkWf {
  wf_handles : handles_ok (progress s) (overall_task s) (subtask s);
  wf_total : is_Some (subtask s) → 0 < _subtask_total s;
  wf_started : _live_started s = true →
               is_Some (start_time s) ∧ is_Some (_log_file s);
  wf_closed : _live_started s = false → _log_file s = None;
  wf_bounded : (length (items (static_content s)) ≤ maxlen (static_content s))%nat
}.

(** ** A sample monitor *)

Definition sample_clock (n : nat) : datetime :=
  {| year := 2024; month := 5; day := 17;
     hour := 9; minute := 30; second := n mod 60; microsecond := 0 |}.

(** [TaskProgressMonitor(filename="train.log", max_static_lines=3)] *)
Definition sample_monitor : State :=
  {| progress := Progress_new;
     static_content := {| items := []; maxlen := 3 |};
     layout_live_info := "Waiting for first update...";
     layout_static_info := PanelEmpty;
     live := false;
     overall_task := None;
     subtask := None;
     _live_started := false;
     _log_file := None;
     start_time := None;
     end_time := None;
     _overall_total := 0;
     _overall_completed := 0;
     _subtask_total := 0;
     _subtask_completed := 0;
     filename := "train.log";
     clock := sample_clock;
     ticks := 0;
     log_file_contents := [];
     stdout := [] |}.

(** The sample monitor, started, with an overall task of two phases. *)
Definition sample_started : State :=
  run [Start; InitOverallTask "P" 2 0] sample_monitor.

(** The same, four steps into a subtask of four. *)
Definition sample_running : State :=
  run [InitSubtask "A" 4; UpdateProgress 1 ""; UpdateProgress 1 "";
       UpdateProgress 1 ""; UpdateProgress 1 ""] sample_started.

(** ** Blocks and loops *)









(** ** Further invariants *)

(** The display runs exactly while the monitor is started, the overall
    bar shows the stored overall figures and the subtask bar the stored
    subtask total. *)
Record consistent (s : State) : Prop := mkConsistent {
  cs_live : live s = _live_started s;
  cs_overall : ∀ o, overall_task s = Some o →
    ∃ t, _tasks (progress s) !! o = Some t
      ∧ task_total t = _overall_total s
      ∧ task_completed t = _overall_completed s;
  cs_subtask : ∀ i, subtask s = Some i →
    ∃ t, _tasks (progress s) !! i = Some t
      ∧ task_total t = _subtask_total s
}.


(** Calls that neither write to the log file, nor print, nor read the
    clock. *)
Definition silent (o : op) : bool :=
  match o with
  | Complete | InitOverallTask _ _ _ | InitSubtask _ _ | UpdateProgress _ _ => true
  | _ => false
  end.

(** What only ever grows: the log file, the terminal output and the
    number of clock readings. *)
Definition grows (s s' : State) : Prop :=
  log_file_contents s `prefix_of` log_file_contents s'
  ∧ stdout s `prefix_of` stdout s'
  ∧ (ticks s ≤ ticks s')%nat.

(** [m] takes every state to one related to it by [R]. *)
Definition evolves {A : Type} (R : State → State → Prop) (m : M A) : Prop :=
  ∀ s, R s (state_of (m s)).

(** What a call can write to or read from outside the monitor. *)
Definition written (s : State) : list chunk * list chunk * nat :=
  (log_file_contents s, stdout s, ticks s).

(** The bar that handle [h] names, if any, shows [total] and
    [completed]. *)
Definition bar_shows (p : Progress) (h : option TaskID) (total : Z)
    (completed : Q) : Prop :=
  ∀ o, h = Some o →
    ∃ t, _tasks p !! o = Some t ∧ task_total t = total
      ∧ task_completed t = completed.

(** The bar that handle [h] names, if any, has the total [total]. *)
Definition bar_total (p : Progress) (h : option TaskID) (total : Z) : Prop :=
  ∀ i, h = Some i → ∃ t, _tasks p !! i = Some t ∧ task_total t = total.

(** The text [complete] leaves in the live panel. *)
Definition finished_text : string := "[bold green]All Tasks Finished![/]".


(** Steps that overshoot a subtask of four and go back. *)
Definition sample_steps : list (Z * string) :=
  [(5, ""); (-7, "back"); (13, "")]%string.

(** ** Properties of computations *)

(** [f] is a part of the state that [m] never changes, whether it
    returns or raises. *)
Definition preserves {A B : Type} (f : State → B) (m : M A) : Prop :=
  ∀ s, f (state_of (m s)) = f s.

(** [m] raises nothing but exceptions in [P]. *)
Definition raises_only {A : Type} (P : exn → Prop) (m : M A) : Prop :=
  ∀ s e, raised (m s) = Some e → P e.

Definition not_zero_division (e : exn) : Prop := e ≠ ZeroDivisionError.

(** A monitor in the middle of a subtask: started, with both bars. *)
Record active (s : State) (o i : nat) : Prop := mkActive {
  act_wf : wf s;
  act_started : _live_started s = true;
  act_overall : overall_task s = Some o;
  act_subtask : subtask s = Some i
}.

(** ** The states of the demonstration *)




(** * Proofs *)

Import TaskProgressMonitor.

(** ** The task table *)

Lemma remove_task_inr id p p' :
  remove_task id p = inr p' →
  is_Some (_tasks p !! id) ∧ _tasks p' = delete id (_tasks p)
  ∧ _task_index p' = _task_index p.
Proof.
  unfold remove_task. destruct (_tasks p !! id) eqn:E; [|discriminate].
  intros [= <-]. eauto.
Qed.

Lemma remove_task_inl id p e :
  remove_task id p = inl e → _tasks p !! id = None ∧ e = KeyError (Some id).
Proof.
  unfold remove_task. destruct (_tasks p !! id) eqn:E; [discriminate|].
  intros [= <-]. eauto.
Qed.

Lemma add_task_spec d n c i p :
  add_task d n c i p =
  (_task_index p, {| _tasks := <[_task_index p := mkTask d n c i]> (_tasks p);
                     _task_index := S (_task_index p) |}).
Proof. reflexivity. Qed.

Lemma update_inr h adv info p p' :
  update h adv info p = inr p' →
  ∃ i t, h = Some i ∧ _tasks p !! i = Some t
    ∧ _tasks p' = <[i := mkTask (task_description t) (task_total t)
                          (task_completed t + adv)%Q
                          (default (task_info t) info)]> (_tasks p)
    ∧ _task_index p' = _task_index p.
Proof.
  unfold update. destruct h as [i|]; [|discriminate].
  destruct (_tasks p !! i) as [t|] eqn:E; [|discriminate].
  intros [= <-]. eauto 10.
Qed.

Lemma update_inl h adv info p e :
  update h adv info p = inl e →
  e = KeyError h ∧ (∀ i, h = Some i → _tasks p !! i = None).
Proof.
  unfold update. destruct h as [i|].
  - destruct (_tasks p !! i) as [t|] eqn:E; [discriminate|].
    intros [= <-]. split; [done|]. by intros ? [= <-].
  - intros [= <-]. split; [done|]. discriminate.
Qed.

Lemma update_None adv info p : update None adv info p = inl (KeyError None).
Proof. reflexivity. Qed.

Lemma update_is_inr i adv info p :
  is_Some (_tasks p !! i) → ∃ p', update (Some i) adv info p = inr p'.
Proof. intros [t Ht]. unfold update. rewrite Ht. eauto. Qed.

Lemma handles_ok_new : handles_ok Progress_new None None.
Proof.
  constructor; try discriminate.
  intros i [t Ht]. cbn in Ht. by rewrite lookup_empty in Ht.
Qed.

Lemma handles_ok_drop_overall p o sub : handles_ok p o sub → handles_ok p None sub.
Proof. intros [Ho Hs Hf Hd]. constructor; try done. Qed.

Lemma handles_ok_drop_subtask p o sub : handles_ok p o sub → handles_ok p o None.
Proof. intros [Ho Hs Hf Hd]. constructor; try done. Qed.

(** A task that no handle names can be deleted. *)
Lemma handles_ok_remove id p p' o sub :
  handles_ok p o sub → o ≠ Some id → sub ≠ Some id →
  remove_task id p = inr p' → handles_ok p' o sub.
Proof.
  intros [Ho Hs Hf Hd] Hno Hns (Hin & Ht & Hi)%remove_task_inr.
  constructor; rewrite ?Ht, ?Hi; try done.
  - intros i ->. rewrite lookup_delete_ne by congruence. eauto.
  - intros i ->. rewrite lookup_delete_ne by congruence. eauto.
  - intros i [t Hl]. apply Hf. exists t.
    destruct (decide (id = i)) as [<-|]; [by rewrite lookup_delete_eq in Hl|].
    by rewrite lookup_delete_ne in Hl.
Qed.

Lemma handles_ok_remove_overall id p p' sub :
  handles_ok p (Some id) sub → remove_task id p = inr p' → handles_ok p' None sub.
Proof.
  intros H Hr. eapply handles_ok_remove; [by eapply handles_ok_drop_overall| done | | done].
  intros ->. by eapply (ho_distinct _ _ _ H).
Qed.

Lemma handles_ok_remove_subtask id p p' o :
  handles_ok p o (Some id) → remove_task id p = inr p' → handles_ok p' o None.
Proof.
  intros H Hr. eapply handles_ok_remove; [by eapply handles_ok_drop_subtask| | done | done].
  intros ->. by eapply (ho_distinct _ _ _ H).
Qed.

Lemma handles_ok_add_overall d n c i p o sub id p' :
  handles_ok p o sub → add_task d n c i p = (id, p') →
  handles_ok p' (Some id) sub.
Proof.
  intros [Ho Hs Hf Hd]. rewrite add_task_spec. intros [= <- <-].
  constructor; cbn.
  - intros j [= <-]. rewrite lookup_insert_eq. eauto.
  - intros j Hj. pose proof (Hf _ (Hs _ Hj)).
    rewrite lookup_insert_ne by lia. eauto.
  - intros j [t Ht]. destruct (decide (_task_index p = j)) as [<-|]; [lia|].
    rewrite lookup_insert_ne in Ht by done. pose proof (Hf j (mk_is_Some _ _ Ht)). lia.
  - intros j k [= <-] Hk. pose proof (Hf _ (Hs _ Hk)). lia.
Qed.

Lemma handles_ok_add_subtask d n c i p o sub id p' :
  handles_ok p o sub → add_task d n c i p = (id, p') →
  handles_ok p' o (Some id).
Proof.
  intros [Ho Hs Hf Hd]. rewrite add_task_spec. intros [= <- <-].
  constructor; cbn.
  - intros j Hj. pose proof (Hf _ (Ho _ Hj)).
    rewrite lookup_insert_ne by lia. eauto.
  - intros j [= <-]. rewrite lookup_insert_eq. eauto.
  - intros j [t Ht]. destruct (decide (_task_index p = j)) as [<-|]; [lia|].
    rewrite lookup_insert_ne in Ht by done. pose proof (Hf j (mk_is_Some _ _ Ht)). lia.
  - intros j k Hj [= <-]. pose proof (Hf _ (Ho _ Hj)). lia.
Qed.

Lemma handles_ok_update h adv info p p' o sub :
  handles_ok p o sub → update h adv info p = inr p' → handles_ok p' o sub.
Proof.
  intros [Ho Hs Hf Hd] (i & t & -> & Hl & Ht & Hi)%update_inr.
  assert (Hdom : ∀ j, is_Some (_tasks p' !! j) ↔ is_Some (_tasks p !! j)).
  { intros j. rewrite Ht. destruct (decide (i = j)) as [<-|].
    - rewrite lookup_insert_eq, Hl. split; eauto.
    - by rewrite lookup_insert_ne. }
  constructor; try done.
  - intros j Hj. apply Hdom; eauto.
  - intros j Hj. apply Hdom; eauto.
  - intros j Hj. rewrite Hi. apply Hf, Hdom, Hj.
Qed.

#[global] Opaque remove_task update add_task.

(** ** Running the monad *)

Ltac munfold :=
  unfold mbind, M_bind, mret, M_ret, gets, modify, raise, file_write, print,
    now, on_progress, when_truthy, elapse in *.


Section preserves.
Context {B : Type} (f : State → B).

Lemma preserves_ret {A} (a : A) : preserves f (mret a).
Proof. by intros s. Qed.

Lemma preserves_raise {A} e : preserves f (raise (A:=A) e).
Proof. by intros s. Qed.

Lemma preserves_gets {A} (g : State → A) : preserves f (gets g).
Proof. by intros s. Qed.

Lemma preserves_bind {A C} (m : M A) (k : A → M C) :
  preserves f m → (∀ a, preserves f (k a)) → preserves f (m ≫= k).
Proof.
  intros Hm Hk s. specialize (Hm s). unfold mbind, M_bind.
  destruct (m s) as [a s'|e s']; cbn in *; [|done].
  by rewrite Hk.
Qed.

Lemma preserves_modify (g : State → State) :
  (∀ s, f (g s) = f s) → preserves f (modify g).
Proof. intros Hg s. apply Hg. Qed.

Lemma preserves_on_progress g :
  (∀ p s, f (set_progress p s) = f s) → preserves f (on_progress g).
Proof.
  intros Hg s. unfold on_progress. destruct (g (progress s)); cbn; [done|apply Hg].
Qed.

Lemma preserves_when_truthy h body :
  (∀ id, preserves f (body id)) → preserves f (when_truthy h body).
Proof. intros Hb. destruct h as [[|n]|]; cbn; [apply preserves_ret|apply Hb|apply preserves_ret]. Qed.

Lemma preserves_now : (∀ n s, f (set_ticks n s) = f s) → preserves f now.
Proof. intros Hg s. apply Hg. Qed.

Lemma preserves_file_write c :
  (∀ l s, f (set_log_file_contents l s) = f s) → preserves f (file_write c).
Proof. intros Hg s. apply Hg. Qed.

Lemma preserves_print c :
  (∀ l s, f (set_stdout l s) = f s) → preserves f (print c).
Proof. intros Hg s. apply Hg. Qed.

Lemma preserves_elapse a b : preserves f (elapse a b).
Proof. intros s. unfold elapse. by destruct (end_time s), (start_time s). Qed.
End preserves.

Ltac frame_step :=
  first
    [ apply preserves_ret
    | apply preserves_raise
    | apply preserves_gets
    | apply preserves_elapse
    | apply preserves_now; intros; reflexivity
    | apply preserves_file_write; intros; reflexivity
    | apply preserves_print; intros; reflexivity
    | apply preserves_modify; intros; reflexivity
    | apply preserves_on_progress; intros; reflexivity
    | apply preserves_when_truthy; intros ?
    | apply preserves_bind; [|intros ?]
    | match goal with
      | |- preserves _ (if ?b then _ else _) => destruct b
      | |- preserves _ (match ?x with _ => _ end) => destruct x
      end ].

Ltac frame := repeat frame_step.


(** ** What each method leaves alone *)

Lemma log_to_file_counters message : preserves counters (_log_to_file message).
Proof. unfold _log_to_file. frame. Qed.

Lemma complete_counters : preserves counters complete.
Proof. unfold complete. frame. Qed.

Lemma update_live_info_counters info : preserves counters (update_live_info info).
Proof. unfold update_live_info, _log_to_file. frame. Qed.

Lemma update_static_info_counters info :
  preserves counters (update_static_info info).
Proof. unfold update_static_info, _log_to_file. frame. Qed.

Lemma complete_static_content : preserves static_content complete.
Proof. unfold complete. frame. Qed.

Lemma call_static_content o :
  (∀ info, o ≠ UpdateStaticInfo info) → preserves static_content (call o).
Proof.
  intros Ho. destruct o; cbn;
    [unfold start | unfold stop, complete | unfold complete
    | unfold init_overall_task | unfold init_subtask | unfold update_progress
    | unfold update_live_info, _log_to_file | by destruct (Ho info)]; frame.
Qed.

Lemma complete_live_started : preserves _live_started complete.
Proof. unfold complete. frame. Qed.


(** ** Well-formedness is an invariant *)

Lemma wf_init filename max_static_lines clock s0 :
  __init__ filename max_static_lines clock = inr s0 → wf s0.
Proof.
  unfold __init__, deque_new.
  destruct (max_static_lines <? 0); [discriminate|]. intros [= <-].
  constructor; cbn; try done.
  - apply handles_ok_new.
  - lia.
Qed.

(** Fields that well-formedness does not look at can change freely. *)
Lemma wf_ext s s' :
  wf s →
  progress s' = progress s → overall_task s' = overall_task s →
  subtask s' = subtask s → _subtask_total s' = _subtask_total s →
  _live_started s' = _live_started s → start_time s' = start_time s →
  _log_file s' = _log_file s → static_content s' = static_content s →
  wf s'.
Proof.
  intros [H1 H2 H3 H4 H5] E1 E2 E3 E4 E5 E6 E7 E8.
  constructor; rewrite ?E1, ?E2, ?E3, ?E4, ?E5, ?E6, ?E7, ?E8; done.
Qed.

Lemma deque_append_bounded x d :
  (length (items d) ≤ maxlen d)%nat →
  (length (items (deque_append x d)) ≤ maxlen (deque_append x d))%nat.
Proof.
  intros H. unfold deque_append. cbn [items maxlen].
  destruct (Nat.ltb_spec (maxlen d) (length (items d ++ [x]))) as [Hlt|Hge]; [|lia].
  rewrite length_app in Hlt. cbn in Hlt.
  destruct (items d ++ [x]) eqn:E; cbn; [lia|].
  apply (f_equal length) in E. rewrite length_app in E. cbn in E. lia.
Qed.

Section wf_preservation.
Variable s : State.
Hypothesis Hwf : wf s.

Lemma wf_log_to_file message : wf (state_of (_log_to_file message s)).
Proof.
  unfold _log_to_file. munfold.
  destruct (_log_file s); cbn; [|done].
  by eapply wf_ext.
Qed.

Lemma wf_start : wf (state_of (start s)).
Proof.
  unfold start. munfold.
  destruct (_live_started s) eqn:Hstarted; cbn; [done|].
  destruct Hwf as [H1 H2 H3 H4 H5].
  constructor; cbn; done.
Qed.

Lemma wf_update_live_info info : wf (state_of (update_live_info info s)).
Proof.
  unfold update_live_info, _log_to_file. munfold.
  destruct (_live_started s) eqn:Hstarted; cbn; [|done].
  destruct (_log_file s) eqn:Hlog; cbn; by eapply wf_ext.
Qed.

Lemma wf_update_static_info info : wf (state_of (update_static_info info s)).
Proof.
  unfold update_static_info, _log_to_file. munfold.
  destruct (_live_started s) eqn:Hstarted; cbn; [|done].
  destruct Hwf as [H1 H2 H3 H4 H5].
  destruct (_log_file s) eqn:Hlog; cbn;
    (constructor; cbn; rewrite ?Hlog; try done; by apply deque_append_bounded).
Qed.

Lemma wf_init_overall_task title total_phases start_phase :
  wf (state_of (init_overall_task title total_phases start_phase s)).
Proof.
  unfold init_overall_task. munfold.
  destruct (_live_started s) eqn:Hstarted; cbn; [|done].
  pose proof Hwf as [H1 H2 H3 H4 H5].
  destruct (overall_task s) as [[|i]|] eqn:Ho; cbn.
  - destruct (add_task _ _ _ _ (progress s)) as [id p'] eqn:Ha; cbn.
    constructor; cbn; try done.
    by eapply handles_ok_add_overall.
  - destruct (remove_task (S i) (progress s)) as [e|p] eqn:Hrm; cbn; [done|].
    destruct (add_task _ _ _ _ p) as [id p'] eqn:Ha; cbn.
    constructor; cbn; try done.
    eapply handles_ok_add_overall; [|done]. by eapply handles_ok_remove_overall.
  - destruct (add_task _ _ _ _ (progress s)) as [id p'] eqn:Ha; cbn.
    constructor; cbn; try done.
    by eapply handles_ok_add_overall.
Qed.

Lemma wf_init_subtask title total_tasks :
  wf (state_of (init_subtask title total_tasks s)).
Proof.
  unfold init_subtask. munfold.
  destruct (_live_started s) eqn:Hstarted; cbn; [|done].
  destruct (Z.leb_spec total_tasks 0); cbn; [done|].
  pose proof Hwf as [H1 H2 H3 H4 H5].
  destruct (subtask s) as [[|i]|] eqn:Ho; cbn.
  - destruct (add_task _ _ _ _ (progress s)) as [id p'] eqn:Ha; cbn.
    constructor; cbn; try done.
    by eapply handles_ok_add_subtask.
  - destruct (remove_task (S i) (progress s)) as [e|p] eqn:Hrm; cbn; [done|].
    destruct (add_task _ _ _ _ p) as [id p'] eqn:Ha; cbn.
    constructor; cbn; try done.
    eapply handles_ok_add_subtask; [|done]. by eapply handles_ok_remove_subtask.
  - destruct (add_task _ _ _ _ (progress s)) as [id p'] eqn:Ha; cbn.
    constructor; cbn; try done.
    by eapply handles_ok_add_subtask.
Qed.
End wf_preservation.

Section wf_preservation_progress.
Variable s : State.
Hypothesis Hwf : wf s.

Lemma wf_update_progress step info : wf (state_of (update_progress step info s)).
Proof.
  unfold update_progress. munfold.
  destruct (_live_started s) eqn:Hstarted; cbn; [|done].
  pose proof Hwf as [H1 H2 H3 H4 H5].
  destruct (update (subtask s) _ _ (progress s)) as [e|p] eqn:Hu; cbn; [done|].
  assert (Hp : wf (set_progress p s)).
  { constructor; cbn; try done. by eapply handles_ok_update. }
  destruct (truediv step (_subtask_total s)) as [e|adv]; cbn; [done|].
  destruct (update (overall_task s) _ _ p) as [e|p'] eqn:Hu'; cbn; [done|].
  constructor; cbn; try done.
  eapply handles_ok_update; [|done]. by eapply handles_ok_update.
Qed.

(** In a well-formed state [complete] finds every task it removes. *)
Lemma complete_ok : raised (complete s) = None ∧ wf (state_of (complete s)).
Proof.
  unfold complete. munfold.
  destruct (_live_started s) eqn:Hstarted; cbn; [|done].
  pose proof Hwf as [H1 H2 H3 H4 H5].
  assert (Hkeep : wf (set_layout_live_info "[bold green]All Tasks Finished![/]" s))
    by (by eapply wf_ext).
  destruct (subtask s) as [[|i]|] eqn:Hs; cbn.
  - destruct (overall_task s) as [[|j]|] eqn:Ho; cbn; [done| |done].
    destruct (remove_task (S j) (progress s)) as [e|p] eqn:Hrm; cbn.
    + apply remove_task_inl in Hrm as [Hrm _].
      destruct (ho_overall _ _ _ H1 (S j) eq_refl) as [t Ht]. congruence.
    + split; [done|]. constructor; cbn; rewrite ?Hs; try done.
      by eapply handles_ok_remove_overall.
  - destruct (remove_task (S i) (progress s)) as [e|p] eqn:Hrm; cbn.
    { apply remove_task_inl in Hrm as [Hrm _].
      destruct (ho_subtask _ _ _ H1 (S i) eq_refl) as [t Ht]. congruence. }
    assert (H1' : handles_ok p (overall_task s) None)
      by (by eapply handles_ok_remove_subtask).
    destruct (overall_task s) as [[|j]|] eqn:Ho; cbn.
    + split; [done|]. constructor; cbn; rewrite ?Ho; done.
    + destruct (remove_task (S j) p) as [e|p'] eqn:Hrm'; cbn.
      * apply remove_task_inl in Hrm' as [Hrm' _].
        destruct (ho_overall _ _ _ H1' (S j) eq_refl) as [t Ht]. congruence.
      * split; [done|]. constructor; cbn; try done.
        by eapply handles_ok_remove_overall.
    + split; [done|]. constructor; cbn; rewrite ?Ho; done.
  - destruct (overall_task s) as [[|j]|] eqn:Ho; cbn; [done| |done].
    destruct (remove_task (S j) (progress s)) as [e|p] eqn:Hrm; cbn.
    + apply remove_task_inl in Hrm as [Hrm _].
      destruct (ho_overall _ _ _ H1 (S j) eq_refl) as [t Ht]. congruence.
    + split; [done|]. constructor; cbn; rewrite ?Hs; try done.
      by eapply handles_ok_remove_overall.
Qed.

(** What [complete] does to the handles of a started monitor: a handle
    is dropped exactly when it is truthy, so a handle on task 0 stays. *)
Lemma complete_handles :
  _live_started s = true →
  subtask (state_of (complete s))
  = (if truthy (subtask s) then None else subtask s)
  ∧ overall_task (state_of (complete s))
    = (if truthy (overall_task s) then None else overall_task s).
Proof.
  intros Hstarted. pose proof Hwf as [H1 H2 H3 H4 H5].
  unfold complete. munfold. rewrite Hstarted; cbn.
  destruct (subtask s) as [[|i]|] eqn:Hs; cbn.
  - destruct (overall_task s) as [[|j]|] eqn:Ho; cbn; rewrite ?Hs, ?Ho; [done| |done].
    destruct (remove_task (S j) (progress s)) as [e|p] eqn:Hr; cbn; [|done].
    apply remove_task_inl in Hr as [Hr _].
    destruct (ho_overall _ _ _ H1 (S j) eq_refl) as [t Ht]. congruence.
  - destruct (remove_task (S i) (progress s)) as [e|p] eqn:Hr; cbn.
    { apply remove_task_inl in Hr as [Hr _].
      destruct (ho_subtask _ _ _ H1 (S i) eq_refl) as [t Ht]. congruence. }
    assert (H1' : handles_ok p (overall_task s) None)
      by (by eapply handles_ok_remove_subtask).
    destruct (overall_task s) as [[|j]|] eqn:Ho; cbn; rewrite ?Ho; [done| |done].
    destruct (remove_task (S j) p) as [e|p'] eqn:Hr'; cbn; [|done].
    apply remove_task_inl in Hr' as [Hr' _].
    destruct (ho_overall _ _ _ H1' (S j) eq_refl) as [t Ht]. congruence.
  - destruct (overall_task s) as [[|j]|] eqn:Ho; cbn; rewrite ?Hs, ?Ho; [done| |done].
    destruct (remove_task (S j) (progress s)) as [e|p] eqn:Hr; cbn; [|done].
    apply remove_task_inl in Hr as [Hr _].
    destruct (ho_overall _ _ _ H1 (S j) eq_refl) as [t Ht]. congruence.
Qed.

Lemma stop_ok success :
  raised (stop success s) = None
  ∧ wf (state_of (stop success s))
  ∧ _live_started (state_of (stop success s)) = false.
Proof.
  unfold stop. munfold.
  destruct (_live_started s) eqn:Hstarted; cbn; [|done].
  destruct complete_ok as [Hr Hwf1].
  pose proof (complete_live_started s) as Hl1.
  destruct (complete s) as [[] s1|e s1]; cbn in *; [clear Hr|done].
  rewrite Hstarted in Hl1.
  destruct Hwf1 as [H1 H2 H3 H4 H5].
  destruct (H3 Hl1) as [[t Ht] [f Hf]].
  rewrite Hf. cbn. rewrite Ht. cbn. rewrite Ht. cbn.
  split; [done|]. split; [|done].
  constructor; cbn; done.
Qed.
End wf_preservation_progress.

Lemma wf_call o s : wf s → wf (state_of (call o s)).
Proof.
  intros Hwf. destruct o; cbn.
  - by apply wf_start.
  - by apply stop_ok.
  - by apply complete_ok.
  - by apply wf_init_overall_task.
  - by apply wf_init_subtask.
  - by apply wf_update_progress.
  - by apply wf_update_live_info.
  - by apply wf_update_static_info.
Qed.

Lemma wf_run ops s : wf s → wf (run ops s).
Proof.
  revert s. induction ops as [|o ops IH]; intros s Hwf; cbn; [done|].
  by apply IH, wf_call.
Qed.

Lemma reachable_wf s : reachable s → wf s.
Proof.
  intros (fn & n & clk & s0 & ops & Hinit & ->).
  eapply wf_run, wf_init, Hinit.
Qed.

Lemma reachable_call o s : reachable s → reachable (state_of (call o s)).
Proof.
  intros (fn & n & clk & s0 & ops & Hinit & ->).
  exists fn, n, clk, s0, (ops ++ [o]). split; [done|].
  clear Hinit. revert s0. induction ops as [|o' ops IH]; intros s0; cbn; [done|].
  apply IH.
Qed.

Lemma reachable_run ops s : reachable s → reachable (run ops s).
Proof.
  revert s. induction ops as [|o ops IH]; intros s Hr; cbn; [done|].
  by apply IH, reachable_call.
Qed.

(** ** Progress accounting *)


Lemma truediv_pos a b : 0 < b → truediv a b = inr (inject_Z a / inject_Z b)%Q.
Proof. intros Hb. unfold truediv. destruct (Z.eqb_spec b 0); [lia|done]. Qed.

Lemma truediv_inl a b e : truediv a b = inl e → b = 0 ∧ e = ZeroDivisionError.
Proof.
  unfold truediv. destruct (Z.eqb_spec b 0); [|discriminate].
  by intros [= <-].
Qed.

Lemma update_progress_active s o i step info :
  active s o i →
  ∃ s', update_progress step info s = Ok tt s'
    ∧ active s' o i
    ∧ _subtask_total s' = _subtask_total s
    ∧ _overall_total s' = _overall_total s
    ∧ _subtask_completed s' = _subtask_completed s + step
    ∧ _overall_completed s'
      = (_overall_completed s + inject_Z step / inject_Z (_subtask_total s))%Q
    ∧ ∀ t, _tasks (progress s) !! o = Some t →
        ∃ t', _tasks (progress s') !! o = Some t'
          ∧ task_completed t'
            = (task_completed t + inject_Z step / inject_Z (_subtask_total s))%Q.
Proof.
  intros [Hwf Hst Ho Hi].
  pose proof (wf_update_progress s Hwf step info) as Hwf'.
  pose proof Hwf as [H1 H2 H3 H4 H5].
  assert (Hoi : o ≠ i) by (eapply ho_distinct; eauto).
  assert (Hpos : 0 < _subtask_total s) by (apply H2; rewrite Hi; eauto).
  destruct (update_is_inr i (inject_Z step) (Some info) (progress s)) as [p Hp];
    [by eapply ho_subtask|].
  pose proof (handles_ok_update _ _ _ _ _ _ _ H1 Hp) as H1'.
  destruct (update_is_inr o (inject_Z step / inject_Z (_subtask_total s))%Q
              None p) as [p' Hp']; [by eapply ho_overall|].
  revert Hwf'. unfold update_progress. munfold.
  rewrite Hst; cbn. rewrite Hi, Hp; cbn.
  rewrite (truediv_pos _ _ Hpos); cbn. rewrite Ho, Hp'; cbn.
  intros Hwf'. eexists. split; [done|]. cbn.
  split; [by constructor|]. repeat (split; [done|]).
  intros t Ht.
  apply update_inr in Hp as (? & ti & [= <-] & Hti & Hpt & _).
  apply update_inr in Hp' as (? & to & [= <-] & Hto & Hpt' & _).
  rewrite Hpt, lookup_insert_ne in Hto by done.
  rewrite Hpt', lookup_insert_eq. eexists. split; [done|]. cbn.
  congruence.
Qed.

Lemma sum_steps_cons step info steps :
  sum_steps ((step, info) :: steps) = step + sum_steps steps.
Proof. reflexivity. Qed.

Lemma advance_all_active steps : ∀ s o i,
  active s o i →
  ∃ s', advance_all steps s = Ok tt s'
    ∧ active s' o i
    ∧ _subtask_total s' = _subtask_total s
    ∧ _overall_total s' = _overall_total s
    ∧ _subtask_completed s' = _subtask_completed s + sum_steps steps
    ∧ (_overall_completed s'
       == _overall_completed s
          + inject_Z (sum_steps steps) / inject_Z (_subtask_total s))%Q
    ∧ ∀ t, _tasks (progress s) !! o = Some t →
        ∃ t', _tasks (progress s') !! o = Some t'
          ∧ (task_completed t'
             == task_completed t
                + inject_Z (sum_steps steps) / inject_Z (_subtask_total s))%Q.
Proof.
  induction steps as [|[step info] steps IH]; intros s o i Hact.
  - exists s. cbn. split; [done|]. split; [done|].
    repeat (split; [done || lia|]).
    assert (Hz : (inject_Z 0 / inject_Z (_subtask_total s) == 0)%Q)
      by (unfold Qdiv; apply Qmult_0_l).
    split.
    + rewrite Hz. symmetry. apply Qplus_0_r.
    + intros t Ht. exists t. split; [done|]. rewrite Hz. symmetry. apply Qplus_0_r.
  - destruct (update_progress_active s o i step info Hact)
      as (s1 & Hrun & Hact1 & Hst & Hot & Hsc & Hoc & Htask).
    destruct (IH s1 o i Hact1)
      as (s2 & Hrun2 & Hact2 & Hst2 & Hot2 & Hsc2 & Hoc2 & Htask2).
    assert (Hpos : 0 < _subtask_total s).
    { destruct Hact as [Hwf _ _ Hi]. apply (wf_total _ Hwf). rewrite Hi. eauto. }
    assert (Hsum : ∀ q : Q,
      (q + inject_Z step / inject_Z (_subtask_total s)
         + inject_Z (sum_steps steps) / inject_Z (_subtask_total s)
       == q + inject_Z (step + sum_steps steps) / inject_Z (_subtask_total s))%Q).
    { intros q. rewrite inject_Z_plus. field.
      intros Hz. unfold Qeq in Hz. cbn in Hz. rewrite Z.mul_1_r in Hz. lia. }
    exists s2. rewrite sum_steps_cons. cbn [advance_all]. split.
    { unfold mbind, M_bind. by rewrite Hrun. }
    split; [done|]. split; [congruence|]. split; [congruence|].
    split; [rewrite Hsc2, Hsc; lia|]. split.
    + rewrite Hoc2, Hst, Hoc. apply Hsum.
    + intros t Ht. destruct (Htask t Ht) as (t1 & Ht1 & Hc1).
      destruct (Htask2 t1 Ht1) as (t2 & Ht2 & Hc2).
      exists t2. split; [done|]. rewrite Hc2, Hst, Hc1. apply Hsum.
Qed.

(** What a successful [init_subtask] does. *)
Lemma init_subtask_ok s title total_tasks :
  wf s → _live_started s = true → 0 < total_tasks →
  ∃ s', init_subtask title total_tasks s = Ok tt s'
    ∧ wf s'
    ∧ _live_started s' = true
    ∧ subtask s' = Some (_task_index (progress s))
    ∧ subtask s ≠ Some (_task_index (progress s))
    ∧ _tasks (progress s') !! _task_index (progress s)
      = Some (mkTask ("[green]" +:+ title) total_tasks 0 "")
    ∧ (∀ i, subtask s = Some (S i) → _tasks (progress s') !! S i = None)
    ∧ overall_task s' = overall_task s
    ∧ (∀ o, overall_task s = Some o →
            _tasks (progress s') !! o = _tasks (progress s) !! o)
    ∧ counters s' = (_overall_total s, _overall_completed s, total_tasks, 0).
Proof.
  intros Hwf Hst Hpos.
  pose proof (wf_init_subtask s Hwf title total_tasks) as Hwf'.
  pose proof Hwf as [H1 H2 H3 H4 H5].
  assert (Hfresh : ∀ j, is_Some (_tasks (progress s) !! j) →
                        j ≠ _task_index (progress s)).
  { intros j Hj%(ho_fresh _ _ _ H1). lia. }
  assert (Hsub : subtask s ≠ Some (_task_index (progress s))).
  { intros Hs. by eapply Hfresh; [eapply ho_subtask|]. }
  revert Hwf'. unfold init_subtask. munfold. rewrite Hst; cbn.
  destruct (Z.leb_spec total_tasks 0); [lia|]; cbn.
  destruct (subtask s) as [[|i]|] eqn:Hs; cbn.
  - rewrite add_task_spec; cbn. intros Hwf'. eexists. split; [done|]. cbn.
    repeat (split; [done|]). split; [by rewrite lookup_insert_eq|].
    split; [done|]. split; [done|]. split; [|done].
    intros o Ho. rewrite lookup_insert_ne; [done|].
    intros Heq. by eapply Hfresh; [eapply ho_overall|].
  - destruct (remove_task (S i) (progress s)) as [e|p] eqn:Hrm; cbn.
    { apply remove_task_inl in Hrm as [Hrm _].
      destruct (ho_subtask _ _ _ H1 (S i) eq_refl) as [t Ht]. congruence. }
    apply remove_task_inr in Hrm as (Hin & Hpt & Hpi).
    rewrite add_task_spec; cbn. rewrite Hpi, Hpt.
    intros Hwf'. eexists. split; [done|]. cbn.
    repeat (split; [done|]). split; [by rewrite lookup_insert_eq|].
    split.
    { intros j Hj. simplify_eq.
      rewrite lookup_insert_ne by (intros Heq; by eapply Hfresh).
      apply lookup_delete_eq. }
    split; [done|]. split; [|done].
    intros o Ho. rewrite lookup_insert_ne.
    + apply lookup_delete_ne. intros Heq. by eapply (ho_distinct _ _ _ H1).
    + intros Heq. by eapply Hfresh; [eapply ho_overall|].
  - rewrite add_task_spec; cbn. intros Hwf'. eexists. split; [done|]. cbn.
    repeat (split; [done|]). split; [by rewrite lookup_insert_eq|].
    split; [done|]. split; [done|]. split; [|done].
    intros o Ho. rewrite lookup_insert_ne; [done|].
    intros Heq. by eapply Hfresh; [eapply ho_overall|].
Qed.

Lemma init_subtask_invalid s title total_tasks :
  _live_started s = true → total_tasks ≤ 0 →
  init_subtask title total_tasks s
  = Raise (ValueError "total_tasks must be a positive integer") s.
Proof.
  intros Hst Hle. unfold init_subtask. munfold.
  rewrite Hst; cbn. by destruct (Z.leb_spec total_tasks 0); [|lia].
Qed.

Lemma init_subtask_not_started s title total_tasks :
  _live_started s = false → init_subtask title total_tasks s = Raise not_started s.
Proof. intros Hst. unfold init_subtask. munfold. by rewrite Hst. Qed.

(** ** Which exceptions a method can raise *)


Section raises_only.
Context (P : exn → Prop).

Lemma raises_only_ret {A} (a : A) : raises_only P (mret a).
Proof. by intros s e. Qed.

Lemma raises_only_raise {A} e : P e → raises_only P (raise (A:=A) e).
Proof. by intros He s e' [= <-]. Qed.

Lemma raises_only_gets {A} (g : State → A) : raises_only P (gets g).
Proof. by intros s e. Qed.

Lemma raises_only_modify g : raises_only P (modify g).
Proof. by intros s e. Qed.

Lemma raises_only_now : raises_only P now.
Proof. by intros s e. Qed.

Lemma raises_only_file_write c : raises_only P (file_write c).
Proof. by intros s e. Qed.

Lemma raises_only_print c : raises_only P (print c).
Proof. by intros s e. Qed.

Lemma raises_only_elapse a b : P TypeError → raises_only P (elapse a b).
Proof.
  intros HP s e. unfold elapse.
  destruct (end_time s), (start_time s); cbn; intros [= <-]; done.
Qed.

Lemma raises_only_bind {A B} (m : M A) (k : A → M B) :
  raises_only P m → (∀ a, raises_only P (k a)) → raises_only P (m ≫= k).
Proof.
  intros Hm Hk s e. specialize (Hm s). unfold mbind, M_bind.
  destruct (m s) as [a s'|e' s']; cbn in *; [apply Hk|apply Hm].
Qed.

Lemma raises_only_on_progress g :
  (∀ p e, g p = inl e → P e) → raises_only P (on_progress g).
Proof.
  intros Hg s e. unfold on_progress.
  destruct (g (progress s)) as [e'|p] eqn:E; cbn; [|done].
  intros [= <-]. by eapply Hg.
Qed.

Lemma raises_only_when_truthy h body :
  (∀ id, raises_only P (body id)) → raises_only P (when_truthy h body).
Proof.
  intros Hb. destruct h as [[|n]|]; cbn;
    [apply raises_only_ret|apply Hb|apply raises_only_ret].
Qed.
End raises_only.


Lemma remove_task_not_zero_division id p e :
  remove_task id p = inl e → not_zero_division e.
Proof. by intros [_ ->]%remove_task_inl. Qed.

Lemma update_not_zero_division h adv info p e :
  update h adv info p = inl e → not_zero_division e.
Proof. by intros [-> _]%update_inl. Qed.

Ltac raises_step :=
  first
    [ apply raises_only_ret
    | apply raises_only_raise; done
    | apply raises_only_gets
    | apply raises_only_elapse; done
    | apply raises_only_now
    | apply raises_only_file_write
    | apply raises_only_print
    | apply raises_only_modify
    | apply raises_only_on_progress; intros ? ?;
        first [apply remove_task_not_zero_division
              |apply update_not_zero_division]
    | apply raises_only_when_truthy; intros ?
    | apply raises_only_bind; [|intros ?]
    | match goal with
      | |- raises_only _ (if ?b then _ else _) => destruct b
      | |- raises_only _ (match ?x with _ => _ end) => destruct x
      end ].

(** Away from [update_progress] nothing divides. *)
Lemma call_not_zero_division o :
  (∀ step info, o ≠ UpdateProgress step info) →
  raises_only not_zero_division (call o).
Proof.
  intros Ho. destruct o; cbn;
    [unfold start | unfold stop, complete | unfold complete
    | unfold init_overall_task | unfold init_subtask | by destruct (Ho step info)
    | unfold update_live_info, _log_to_file
    | unfold update_static_info, _log_to_file]; repeat raises_step.
Qed.

(** In a well-formed state the division of [update_progress] is only
    reached with a positive subtask total. *)
Lemma update_progress_not_zero_division s step info :
  wf s → raised (update_progress step info s) ≠ Some ZeroDivisionError.
Proof.
  intros Hwf. unfold update_progress. munfold.
  destruct (_live_started s); cbn; [|done].
  destruct (update (subtask s) _ _ (progress s)) as [e|p] eqn:Hu; cbn.
  { apply update_not_zero_division in Hu. by intros [= ->]. }
  apply update_inr in Hu as (i & t & Hi & _).
  rewrite truediv_pos by (apply (wf_total _ Hwf); rewrite Hi; eauto). cbn.
  destruct (update (overall_task s) _ _ p) as [e|p'] eqn:Hu'; cbn; [|done].
  apply update_not_zero_division in Hu'. by intros [= ->].
Qed.

Lemma wf_outcomes_not_zero_division ops : ∀ s,
  wf s → Some ZeroDivisionError ∉ outcomes ops s.
Proof.
  induction ops as [|o ops IH]; intros s Hwf; cbn.
  - apply not_elem_of_nil.
  - apply not_elem_of_cons. split; [|by apply IH, wf_call].
    intros Heq. symmetry in Heq.
    assert (Hcase : (∃ step info, o = UpdateProgress step info)
                    ∨ (∀ step info, o ≠ UpdateProgress step info))
      by (destruct o; eauto; by right).
    destruct Hcase as [(step & info & ->)|Hno].
    + by eapply update_progress_not_zero_division.
    + by eapply call_not_zero_division in Heq.
Qed.

(** ** The history buffer *)

Lemma deque_append_items x d :
  (length (items d) ≤ maxlen d)%nat →
  items (deque_append x d)
  = drop (length (items d ++ [x]) - maxlen d) (items d ++ [x]).
Proof.
  intros Hb. unfold deque_append. cbn [items].
  rewrite length_app. cbn [length].
  destruct (Nat.ltb_spec (maxlen d) (length (items d) + 1)) as [Hlt|Hge].
  - replace (length (items d) + 1 - maxlen d)%nat with 1%nat by lia.
    by destruct (items d ++ [x]).
  - by replace (length (items d) + 1 - maxlen d)%nat with 0%nat by lia.
Qed.

Lemma deque_append_maxlen x d : maxlen (deque_append x d) = maxlen d.
Proof. reflexivity. Qed.

(** Eviction takes the oldest line and nothing else. *)
Lemma deque_append_cases x d :
  items (deque_append x d) = items d ++ [x]
  ∨ items (deque_append x d) = tail (items d ++ [x]).
Proof. unfold deque_append. cbn [items]. destruct (_ <? _)%nat; eauto. Qed.

Lemma push_all_items lines : ∀ d,
  (length (items d) ≤ maxlen d)%nat →
  items (push_all lines d)
  = drop (length (items d ++ lines) - maxlen d) (items d ++ lines)
  ∧ maxlen (push_all lines d) = maxlen d.
Proof.
  induction lines as [|x lines IH]; intros d Hb.
  - cbn. rewrite app_nil_r. split; [|done].
    by replace (length (items d) - maxlen d)%nat with 0%nat by lia.
  - change (push_all (x :: lines) d) with (push_all lines (deque_append x d)).
    destruct (IH (deque_append x d) (deque_append_bounded x d Hb)) as [-> ->].
    split; [|done]. rewrite deque_append_maxlen, (deque_append_items x d Hb).
    set (k := (length (items d ++ [x]) - maxlen d)%nat).
    assert (Hk : (k ≤ length (items d ++ [x]))%nat) by lia.
    rewrite <- (drop_app_le _ lines k Hk), <- app_assoc. cbn [app].
    rewrite drop_drop, length_drop. f_equal.
    subst k. rewrite !length_app. cbn [length]. lia.
Qed.

(** ** Tail rendering *)

Lemma slice_from_last {A} (n : Z) (l : list A) :
  0 < n → slice_from (- n) l = drop (length l - Z.to_nat n) l.
Proof.
  intros Hn. unfold slice_from.
  destruct (Z.ltb_spec (- n) 0); [|lia]. f_equal. lia.
Qed.

(** ** Formatting *)








(** ** The sample monitor *)

Lemma sample_monitor_init :
  __init__ "train.log" 3 sample_clock = inr sample_monitor.
Proof. reflexivity. Qed.

Lemma sample_reachable ops : reachable (run ops sample_monitor).
Proof.
  exists "train.log"%string, 3, sample_clock, sample_monitor, ops.
  split; [apply sample_monitor_init|reflexivity].
Defined.

Lemma sample_started_reachable : reachable sample_started.
Proof. apply sample_reachable. Defined.

Lemma sample_running_reachable : reachable sample_running.
Proof. apply (reachable_run _ _ sample_started_reachable). Defined.

(** * The claims *)

(** C1.  Within one subtask of [N] steps, [update_progress] calls whose
    steps add up to [N] all succeed and raise the overall completed
    counter, and the overall bar of the task table, by exactly one unit
    over their values when the subtask was initialised, whatever [N] is.
    The monitor is started and has an overall task. *)
Theorem C1_subtask_completion_adds_one_unit
    (s : State) (title : string) (N : Z) (steps : list (Z * string)) :
  reachable s → _live_started s = true → is_Some (overall_task s) →
  0 < N → sum_steps steps = N →
  ∃ s1 s2,
    init_subtask title N s = Ok tt s1
    ∧ advance_all steps s1 = Ok tt s2
    ∧ _overall_completed s1 = _overall_completed s
    ∧ (_overall_completed s2 == _overall_completed s1 + 1)%Q
    ∧ _subtask_completed s2 = N
    ∧ ∀ o t1, overall_task s = Some o → _tasks (progress s1) !! o = Some t1 →
        ∃ t2, _tasks (progress s2) !! o = Some t2
          ∧ (task_completed t2 == task_completed t1 + 1)%Q.
Proof.
  intros Hwf%reachable_wf Hst [o Ho] HN Hsum.
  destruct (init_subtask_ok s title N Hwf Hst HN)
    as (s1 & Hinit & Hwf1 & Hst1 & Hsub1 & _ & _ & _ & Ho1 & _ & Hc1).
  injection Hc1 as Hot1 Hoc1 Hst1' Hsc1.
  assert (Hact : active s1 o (_task_index (progress s))).
  { constructor; [done|done|congruence|done]. }
  destruct (advance_all_active steps s1 _ _ Hact)
    as (s2 & Hrun & _ & _ & _ & Hsc2 & Hoc2 & Htask).
  assert (Hone : (inject_Z (sum_steps steps) / inject_Z (_subtask_total s1) == 1)%Q).
  { rewrite Hsum, Hst1'. apply Qmult_inv_r.
    intros Hz. unfold Qeq in Hz. cbn in Hz. lia. }
  exists s1, s2. split; [done|]. split; [done|]. split; [done|].
  split; [by rewrite Hoc2, Hone|]. split; [lia|].
  intros o' t1 Ho' Ht1. assert (o' = o) as -> by congruence.
  destruct (Htask t1 Ht1) as (t2 & Ht2 & Hc2).
  exists t2. split; [done|]. by rewrite Hc2, Hone.
Qed.

Lemma C1_witness :
  reachable sample_started ∧ _live_started sample_started = true
  ∧ is_Some (overall_task sample_started) ∧ 0 < 4
  ∧ sum_steps [(1, ""); (2, "x"); (-1, ""); (2, "y")]%string = 4
  ∧ ∃ s1 s2,
      init_subtask "A" 4 sample_started = Ok tt s1
      ∧ advance_all [(1, ""); (2, "x"); (-1, ""); (2, "y")]%string s1 = Ok tt s2
      ∧ _overall_completed s1 = _overall_completed sample_started
      ∧ (_overall_completed s2 == _overall_completed s1 + 1)%Q
      ∧ _subtask_completed s2 = 4
      ∧ ∀ o t1, overall_task sample_started = Some o →
          _tasks (progress s1) !! o = Some t1 →
          ∃ t2, _tasks (progress s2) !! o = Some t2
            ∧ (task_completed t2 == task_completed t1 + 1)%Q.
Proof.
  assert (H1 : reachable sample_started) by exact sample_started_reachable.
  assert (H2 : _live_started sample_started = true) by reflexivity.
  assert (H3 : is_Some (overall_task sample_started)) by (vm_compute; eauto).
  assert (H4 : 0 < 4) by lia.
  assert (H5 : sum_steps [(1, ""); (2, "x"); (-1, ""); (2, "y")]%string = 4)
    by reflexivity.
  repeat (split; [assumption|]).
  exact (C1_subtask_completion_adds_one_unit sample_started "A" 4 _ H1 H2 H3 H4 H5).
Defined.

(** C2.  No sequence of public calls on a monitor ever raises
    [ZeroDivisionError]: while the stored subtask total is not positive
    [update_progress] stops before its division, at the started check or
    at the lookup of the missing subtask bar, and leaves the monitor as
    it was; and [init_subtask] on a started monitor refuses every total
    that is not positive. *)
Theorem C2_division_never_by_zero (s : State) (ops : list op) :
  reachable s →
  (Some ZeroDivisionError ∉ outcomes ops s)
  ∧ (∀ step info, _subtask_total s ≤ 0 →
       ∃ e, update_progress step info s = Raise e s
         ∧ (e = not_started ∨ e = KeyError None))
  ∧ (∀ title total_tasks, _live_started s = true → total_tasks ≤ 0 →
       init_subtask title total_tasks s
       = Raise (ValueError "total_tasks must be a positive integer") s).
Proof.
  intros Hwf%reachable_wf. split; [by apply wf_outcomes_not_zero_division|].
  split.
  - intros step info Htot. unfold update_progress. munfold.
    destruct (_live_started s); cbn; [|eauto].
    destruct (subtask s) as [i|] eqn:Hi.
    + pose proof (wf_total _ Hwf) as Hpos. rewrite Hi in Hpos.
      specialize (Hpos (mk_is_Some _ _ eq_refl)). lia.
    + rewrite update_None. cbn. eauto.
  - intros title total_tasks Hst Hle. by apply init_subtask_invalid.
Qed.

Lemma C2_witness :
  reachable sample_started
  ∧ (Some ZeroDivisionError
     ∉ outcomes [UpdateProgress 1 ""; InitSubtask "A" 0; UpdateProgress 1 "";
                 InitSubtask "A" 2; UpdateProgress 3 ""; Stop true; Start;
                 UpdateProgress 1 ""]
                sample_started)
  ∧ (∀ step info, _subtask_total sample_started ≤ 0 →
       ∃ e, update_progress step info sample_started = Raise e sample_started
         ∧ (e = not_started ∨ e = KeyError None))
  ∧ (∀ title total_tasks, _live_started sample_started = true → total_tasks ≤ 0 →
       init_subtask title total_tasks sample_started
       = Raise (ValueError "total_tasks must be a positive integer") sample_started).
Proof.
  split; [exact sample_started_reachable|].
  exact (C2_division_never_by_zero sample_started _ sample_started_reachable).
Defined.




(** C4.  A history buffer of capacity [C] that received more than [C]
    lines holds exactly the last [C] of them, oldest first; a push only
    ever removes the oldest line, a started [update_static_info] is such
    a push, and no other method touches the buffer.  With capacity 3,
    pushing a, b, c, d leaves b, c, d. *)
Theorem C4_history_keeps_last_lines (C : nat) (lines : list string) (d : deque) :
  deque_new (Z.of_nat C) = inr d → (C < length lines)%nat →
  items (push_all lines d) = drop (length lines - C) lines
  ∧ length (items (push_all lines d)) = C
  ∧ (∀ x d', items (deque_append x d') = items d' ++ [x]
             ∨ items (deque_append x d') = tail (items d' ++ [x]))
  ∧ (∀ info s, _live_started s = true →
       static_content (state_of (update_static_info info s))
       = deque_append info (static_content s))
  ∧ (∀ o s, (∀ info, o ≠ UpdateStaticInfo info) →
       static_content (state_of (call o s)) = static_content s)
  ∧ items (push_all ["a"; "b"; "c"; "d"]%string {| items := []; maxlen := 3 |})
    = ["b"; "c"; "d"]%string.
Proof.
  unfold deque_new. destruct (Z.ltb_spec (Z.of_nat C) 0); [lia|].
  intros [= <-] Hlen. rewrite Nat2Z.id.
  destruct (push_all_items lines {| items := []; maxlen := C |}) as [Hitems _];
    [cbn; lia|].
  cbn [items maxlen app] in Hitems.
  split; [done|]. split; [rewrite Hitems, length_drop; lia|].
  split; [intros x d'; apply deque_append_cases|].
  split.
  { intros info s Hst. unfold update_static_info, _log_to_file. munfold.
    rewrite Hst; cbn. by destruct (_log_file s). }
  split; [intros o s Ho; by apply call_static_content|].
  reflexivity.
Qed.

Lemma C4_witness :
  deque_new (Z.of_nat 2) = inr {| items := []; maxlen := 2 |}
  ∧ (2 < length ["u"; "v"; "w"; "x"; "y"]%string)%nat
  ∧ items (push_all ["u"; "v"; "w"; "x"; "y"]%string {| items := []; maxlen := 2 |})
    = drop (length ["u"; "v"; "w"; "x"; "y"]%string - 2)
        ["u"; "v"; "w"; "x"; "y"]%string
  ∧ length (items (push_all ["u"; "v"; "w"; "x"; "y"]%string
                     {| items := []; maxlen := 2 |})) = 2%nat
  ∧ (∀ x d', items (deque_append x d') = items d' ++ [x]
             ∨ items (deque_append x d') = tail (items d' ++ [x]))
  ∧ (∀ info s, _live_started s = true →
       static_content (state_of (update_static_info info s))
       = deque_append info (static_content s))
  ∧ (∀ o s, (∀ info, o ≠ UpdateStaticInfo info) →
       static_content (state_of (call o s)) = static_content s)
  ∧ items (push_all ["a"; "b"; "c"; "d"]%string {| items := []; maxlen := 3 |})
    = ["b"; "c"; "d"]%string.
Proof.
  assert (H1 : deque_new (Z.of_nat 2) = inr {| items := []; maxlen := 2 |})
    by reflexivity.
  assert (H2 : (2 < length ["u"; "v"; "w"; "x"; "y"]%string)%nat) by (cbn; lia).
  split; [exact H1|]. split; [exact H2|].
  exact (C4_history_keeps_last_lines 2 _ _ H1 H2).
Defined.

(** C5.  For a snapshot and a viewport height [H], the lines
    [TailText] keeps are the last [max(1, H)] lines of the snapshot, in
    order, and all of them when there are fewer; they depend on the
    snapshot and the height only; a height that is at least the length
    of the snapshot gives the whole snapshot; the text yielded is these
    lines joined by newlines. *)
Theorem C5_tail_is_last_lines (d : deque) (H : Z) :
  ∃ out,
    TailText.display_lines d (Some H) = inr out
    ∧ out = drop (length (items d) - Z.to_nat (Z.max 1 H)) (items d)
    ∧ (∃ older, items d = older ++ out)
    ∧ length out = (Z.to_nat (Z.max 1 H) `min` length (items d))%nat
    ∧ (∀ d', items d' = items d → TailText.display_lines d' (Some H) = inr out)
    ∧ (Z.of_nat (length (items d)) ≤ H → out = items d)
    ∧ TailText.__rich_console__ d (Some H) = inr (join nl out).
Proof.
  assert (Hd : ∀ d', TailText.display_lines d' (Some H)
             = inr (drop (length (items d') - Z.to_nat (Z.max 1 H)) (items d'))).
  { intros d'. unfold TailText.display_lines. by rewrite slice_from_last by lia. }
  eexists. split; [apply Hd|]. split; [done|].
  split; [eexists; symmetry; apply take_drop|].
  split; [rewrite length_drop; lia|].
  split; [intros d' Heq; by rewrite Hd, Heq|].
  split.
  - intros Hge.
    by replace (length (items d) - Z.to_nat (Z.max 1 H))%nat with 0%nat by lia.
  - unfold TailText.__rich_console__. by rewrite Hd.
Qed.

Lemma C5_witness :
  Z.of_nat (length (items {| items := ["a"; "b"; "c"]%string; maxlen := 3 |})) ≤ 5
  ∧ TailText.display_lines {| items := ["a"; "b"; "c"]%string; maxlen := 3 |} (Some 5)
    = inr ["a"; "b"; "c"]%string.
Proof.
  assert (H1 : Z.of_nat (length (items {| items := ["a"; "b"; "c"]%string;
                                          maxlen := 3 |})) ≤ 5) by (cbn; lia).
  split; [exact H1|].
  destruct (C5_tail_is_last_lines {| items := ["a"; "b"; "c"]%string; maxlen := 3 |} 5)
    as (out & Hout & _ & _ & _ & _ & Hfull & _).
  rewrite Hout. f_equal. exact (Hfull H1).
Defined.








(** C9.  When [init_subtask] is given a total that is not positive it
    raises and hands back the monitor exactly as it received it: the
    subtask handle, the stored subtask total and completed steps and all
    of the overall task are untouched.  The exception is the
    invalid-argument error on a started monitor and the not-started error
    otherwise. *)
Theorem C9_init_subtask_error_is_atomic (s : State) (title : string)
    (total_tasks : Z) :
  total_tasks ≤ 0 →
  init_subtask title total_tasks s
  = Raise (if _live_started s
           then ValueError "total_tasks must be a positive integer"
           else not_started) s.
Proof.
  intros Hle. destruct (_live_started s) eqn:Hst.
  - by apply init_subtask_invalid.
  - by apply init_subtask_not_started.
Qed.

Lemma C9_witness :
  -3 ≤ 0
  ∧ init_subtask "B" (-3) sample_running
    = Raise (if _live_started sample_running
             then ValueError "total_tasks must be a positive integer"
             else not_started) sample_running.
Proof.
  assert (H1 : -3 ≤ 0) by lia.
  split; [exact H1|].
  exact (C9_init_subtask_error_is_atomic sample_running "B" (-3) H1).
Defined.

Lemma log_line_counters timestamp message s s' :
  counters s' = counters s →
  log_line timestamp message s' = log_line timestamp message s.
Proof. unfold counters, log_line. by intros [= -> -> -> ->]. Qed.

(** C10.  [complete], [update_live_info] and [update_static_info] never
    change the four stored progress figures, so a line logged after
    [complete] carries the figures from before it.  But [complete] does
    not clear a handle whose task id is 0, which its truthiness test
    takes for no task: after start, an overall task and [complete], the
    overall handle still names task 0 and the bar is still in the table. *)
Theorem C10_complete_keeps_counters_and_handle_zero :
  (let s := run [Start; InitOverallTask "P" 2 0; Complete] sample_monitor in
   outcomes [Start; InitOverallTask "P" 2 0; Complete] sample_monitor
   = [None; None; None]
   ∧ overall_task s = Some 0%nat
   ∧ is_Some (_tasks (progress s) !! 0%nat))
  ∧ (let s := run [Start; InitSubtask "A" 4; InitOverallTask "P" 2 0; Complete]
                  sample_monitor in
     subtask s = Some 0%nat ∧ overall_task s = None)
  ∧ (∀ s, counters (state_of (complete s)) = counters s)
  ∧ (∀ s info, counters (state_of (update_live_info info s)) = counters s)
  ∧ (∀ s info, counters (state_of (update_static_info info s)) = counters s)
  ∧ (∀ s timestamp message,
       log_line timestamp message (state_of (complete s))
       = log_line timestamp message s).
Proof.
  split; [vm_compute; eauto|]. split; [vm_compute; eauto|].
  split; [apply complete_counters|].
  split; [intros s info; apply update_live_info_counters|].
  split; [intros s info; apply update_static_info_counters|].
  intros s timestamp message. apply log_line_counters, complete_counters.
Qed.

(** * Further properties *)

(** ** Growth *)

Section evolves.
Context (R : State → State → Prop) `{!Reflexive R, !Transitive R}.

Lemma evolves_ret {A} (a : A) : evolves R (mret a).
Proof. intros s. cbn. reflexivity. Qed.

Lemma evolves_raise {A} e : evolves R (raise (A:=A) e).
Proof. intros s. cbn. reflexivity. Qed.

Lemma evolves_gets {A} (g : State → A) : evolves R (gets g).
Proof. intros s. cbn. reflexivity. Qed.

Lemma evolves_elapse a b : evolves R (elapse a b).
Proof.
  intros s. unfold elapse. destruct (end_time s), (start_time s); cbn; reflexivity.
Qed.

Lemma evolves_bind {A B} (m : M A) (k : A → M B) :
  evolves R m → (∀ a, evolves R (k a)) → evolves R (m ≫= k).
Proof.
  intros Hm Hk s. specialize (Hm s). unfold mbind, M_bind.
  destruct (m s) as [a s'|e s']; cbn in *; [|done].
  etransitivity; [exact Hm|apply Hk].
Qed.

Lemma evolves_modify (g : State → State) :
  (∀ s, R s (g s)) → evolves R (modify g).
Proof. intros Hg s. apply Hg. Qed.

Lemma evolves_on_progress g :
  (∀ p s, R s (set_progress p s)) → evolves R (on_progress g).
Proof.
  intros Hg s. unfold on_progress.
  destruct (g (progress s)); cbn; [reflexivity|apply Hg].
Qed.

Lemma evolves_when_truthy h body :
  (∀ id, evolves R (body id)) → evolves R (when_truthy h body).
Proof.
  intros Hb. destruct h as [[|n]|]; cbn;
    [apply evolves_ret|apply Hb|apply evolves_ret].
Qed.
End evolves.

#[local] Instance grows_refl : Reflexive grows.
Proof. intros s. by repeat split. Qed.

#[local] Instance grows_trans : Transitive grows.
Proof.
  intros s1 s2 s3 (H1 & H2 & H3) (H1' & H2' & H3').
  split; [by etransitivity|]. split; [by etransitivity|]. lia.
Qed.

Lemma grows_now : evolves grows now.
Proof. intros s. unfold now, grows. cbn. repeat split; try done. lia. Qed.

Lemma grows_file_write c : evolves grows (file_write c).
Proof.
  intros s. unfold file_write, modify, grows. cbn.
  repeat split; try done. by apply prefix_app_r.
Qed.

Lemma grows_print c : evolves grows (print c).
Proof.
  intros s. unfold print, modify, grows. cbn.
  repeat split; try done. by apply prefix_app_r.
Qed.

Ltac grows_step :=
  first
    [ apply evolves_ret; tc_solve
    | apply evolves_raise; tc_solve
    | apply evolves_gets; tc_solve
    | apply evolves_elapse; tc_solve
    | apply grows_now
    | apply grows_file_write
    | apply grows_print
    | apply evolves_modify; intros; by repeat split
    | apply evolves_on_progress; [tc_solve|intros; by repeat split]
    | apply evolves_when_truthy; [tc_solve|intros ?]
    | apply evolves_bind; [tc_solve| |intros ?]
    | match goal with
      | |- evolves _ (if ?b then _ else _) => destruct b
      | |- evolves _ (match ?x with _ => _ end) => destruct x
      end ].

Lemma grows_call o : evolves grows (call o).
Proof.
  destruct o; cbn;
    [unfold start | unfold stop, complete | unfold complete
    | unfold init_overall_task | unfold init_subtask | unfold update_progress
    | unfold update_live_info, _log_to_file
    | unfold update_static_info, _log_to_file]; repeat grows_step.
Qed.

Lemma grows_run ops : ∀ s, grows s (run ops s).
Proof.
  induction ops as [|o ops IH]; intros s; cbn; [reflexivity|].
  etransitivity; [apply grows_call|apply IH].
Qed.

(** X1.  Nothing a session does removes or rewrites what was written:
    whatever calls are made, and whether they return or raise, the log
    file and the terminal output keep what they held as a prefix, and the
    clock is never read backwards. *)
Theorem X1_log_and_output_only_grow (ops : list op) (s : State) :
  log_file_contents s `prefix_of` log_file_contents (run ops s)
  ∧ stdout s `prefix_of` stdout (run ops s)
  ∧ (ticks s ≤ ticks (run ops s))%nat.
Proof. apply grows_run. Qed.

(** ** Calls that leave the log, the terminal and the clock alone *)

Lemma silent_call_written o : silent o = true → preserves written (call o).
Proof.
  destruct o; try discriminate; intros _; cbn;
    [unfold complete | unfold init_overall_task | unfold init_subtask
    | unfold update_progress]; frame.
Qed.

Lemma call_stdout o : (∀ success, o ≠ Stop success) → preserves stdout (call o).
Proof.
  intros Ho. destruct o; cbn;
    [unfold start | by destruct (Ho success) | unfold complete
    | unfold init_overall_task | unfold init_subtask | unfold update_progress
    | unfold update_live_info, _log_to_file
    | unfold update_static_info, _log_to_file]; frame.
Qed.

(** X2.  [complete], [init_overall_task], [init_subtask] and
    [update_progress] never write to the log file, never print and never
    read the clock, whether they return or raise. *)
Theorem X2_progress_calls_are_silent (o : op) (s : State) :
  silent o = true →
  log_file_contents (state_of (call o s)) = log_file_contents s
  ∧ stdout (state_of (call o s)) = stdout s
  ∧ ticks (state_of (call o s)) = ticks s.
Proof.
  intros Ho. pose proof (silent_call_written o Ho s) as H.
  unfold written in H. by injection H as -> -> ->.
Qed.

Lemma X2_witness :
  silent (UpdateProgress 3 "x") = true
  ∧ log_file_contents (state_of (call (UpdateProgress 3 "x") sample_running))
    = log_file_contents sample_running
  ∧ stdout (state_of (call (UpdateProgress 3 "x") sample_running))
    = stdout sample_running
  ∧ ticks (state_of (call (UpdateProgress 3 "x") sample_running))
    = ticks sample_running.
Proof.
  assert (H1 : silent (UpdateProgress 3 "x") = true) by reflexivity.
  split; [exact H1|].
  exact (X2_progress_calls_are_silent _ sample_running H1).
Defined.

(** X3.  Only [stop] prints: every other call leaves the terminal
    output as it was. *)
Theorem X3_only_stop_prints (o : op) (s : State) :
  (∀ success, o ≠ Stop success) →
  stdout (state_of (call o s)) = stdout s.
Proof. intros Ho. by apply call_stdout. Qed.

Lemma X3_witness :
  (∀ success, UpdateStaticInfo "done" ≠ Stop success)
  ∧ stdout (state_of (call (UpdateStaticInfo "done") sample_running))
    = stdout sample_running.
Proof.
  assert (H1 : ∀ success, UpdateStaticInfo "done" ≠ Stop success)
    by (intros success; discriminate).
  split; [exact H1|].
  exact (X3_only_stop_prints _ sample_running H1).
Defined.

(** ** The bars and the stored figures *)

Lemma consistent_intro s :
  live s = _live_started s →
  bar_shows (progress s) (overall_task s) (_overall_total s) (_overall_completed s) →
  bar_total (progress s) (subtask s) (_subtask_total s) →
  consistent s.
Proof. intros H1 H2 H3. by constructor. Qed.

Lemma consistent_elim s :
  consistent s →
  live s = _live_started s
  ∧ bar_shows (progress s) (overall_task s) (_overall_total s) (_overall_completed s)
  ∧ bar_total (progress s) (subtask s) (_subtask_total s).
Proof. intros [H1 H2 H3]. done. Qed.

Lemma bar_shows_None p total completed : bar_shows p None total completed.
Proof. by intros o. Qed.

Lemma bar_total_None p total : bar_total p None total.
Proof. by intros o. Qed.

Lemma bar_shows_remove id p p' h total completed :
  bar_shows p h total completed → h ≠ Some id →
  remove_task id p = inr p' → bar_shows p' h total completed.
Proof.
  intros Hb Hne (_ & Ht & _)%remove_task_inr o ->.
  destruct (Hb o eq_refl) as (t & Hl & Hr). exists t. split; [|done].
  rewrite Ht, lookup_delete_ne; [done|congruence].
Qed.

Lemma bar_total_remove id p p' h total :
  bar_total p h total → h ≠ Some id →
  remove_task id p = inr p' → bar_total p' h total.
Proof.
  intros Hb Hne (_ & Ht & _)%remove_task_inr o ->.
  destruct (Hb o eq_refl) as (t & Hl & Hr). exists t. split; [|done].
  rewrite Ht, lookup_delete_ne; [done|congruence].
Qed.

Lemma bar_shows_add d n c i p id p' h total completed :
  bar_shows p h total completed →
  (∀ o, h = Some o → (o < _task_index p)%nat) →
  add_task d n c i p = (id, p') → bar_shows p' h total completed.
Proof.
  intros Hb Hlt. rewrite add_task_spec. intros [= <- <-] o ->.
  destruct (Hb o eq_refl) as (t & Hl & Hr). exists t. split; [|done].
  cbn. rewrite lookup_insert_ne; [done|]. specialize (Hlt o eq_refl). lia.
Qed.

Lemma bar_total_add d n c i p id p' h total :
  bar_total p h total →
  (∀ o, h = Some o → (o < _task_index p)%nat) →
  add_task d n c i p = (id, p') → bar_total p' h total.
Proof.
  intros Hb Hlt. rewrite add_task_spec. intros [= <- <-] o ->.
  destruct (Hb o eq_refl) as (t & Hl & Hr). exists t. split; [|done].
  cbn. rewrite lookup_insert_ne; [done|]. specialize (Hlt o eq_refl). lia.
Qed.

Lemma bar_shows_new d n c i p id p' :
  add_task d n c i p = (id, p') → bar_shows p' (Some id) n c.
Proof.
  rewrite add_task_spec. intros [= <- <-] o [= <-]. cbn.
  rewrite lookup_insert_eq. eauto.
Qed.

Lemma bar_total_new d n c i p id p' :
  add_task d n c i p = (id, p') → bar_total p' (Some id) n.
Proof.
  rewrite add_task_spec. intros [= <- <-] o [= <-]. cbn.
  rewrite lookup_insert_eq. eauto.
Qed.

Lemma bar_total_update h' adv info p p' h total :
  bar_total p h total → update h' adv info p = inr p' → bar_total p' h total.
Proof.
  intros Hb (i & t & -> & Hl & Ht & _)%update_inr o ->.
  destruct (Hb o eq_refl) as (t0 & Hl0 & Hr). rewrite Ht.
  destruct (decide (i = o)) as [->|Hne].
  - rewrite lookup_insert_eq. eexists. split; [done|]. cbn. congruence.
  - rewrite lookup_insert_ne by done. eauto.
Qed.

Lemma bar_shows_update_other i adv info p p' h total completed :
  bar_shows p h total completed → h ≠ Some i →
  update (Some i) adv info p = inr p' → bar_shows p' h total completed.
Proof.
  intros Hb Hne (? & t & [= <-] & Hl & Ht & _)%update_inr o ->.
  destruct (Hb o eq_refl) as (t0 & Hl0 & Hr). rewrite Ht.
  rewrite lookup_insert_ne by congruence. eauto.
Qed.

Lemma bar_shows_update_same h adv info p p' total completed :
  bar_shows p h total completed → update h adv info p = inr p' →
  bar_shows p' h total (completed + adv)%Q.
Proof.
  intros Hb (i & t & -> & Hl & Ht & _)%update_inr o [= <-].
  destruct (Hb i eq_refl) as (t0 & Hl0 & Htot & Hc). rewrite Ht.
  rewrite lookup_insert_eq. eexists. split; [done|]. cbn.
  assert (t0 = t) as -> by congruence. by rewrite Hc.
Qed.

Lemma handle_below p o sub h i :
  handles_ok p o sub → (h = o ∨ h = sub) → h = Some i → (i < _task_index p)%nat.
Proof.
  intros [Ho Hs Hf Hd] [->| ->] Hi; apply Hf; eauto.
Qed.

Section consistent_preservation.
Variable s : State.
Hypothesis Hwf : wf s.
Hypothesis Hcs : consistent s.

Lemma consistent_start : consistent (state_of (start s)).
Proof.
  unfold start. munfold.
  destruct (_live_started s) eqn:Hst; cbn; [done|].
  pose proof Hcs as [H1 H2 H3]. by constructor.
Qed.

Lemma consistent_update_live_info info :
  consistent (state_of (update_live_info info s)).
Proof.
  unfold update_live_info, _log_to_file. munfold.
  destruct (_live_started s) eqn:Hst; cbn; [|done].
  pose proof Hcs as [H1 H2 H3].
  destruct (_log_file s); cbn; by constructor.
Qed.

Lemma consistent_update_static_info info :
  consistent (state_of (update_static_info info s)).
Proof.
  unfold update_static_info, _log_to_file. munfold.
  destruct (_live_started s) eqn:Hst; cbn; [|done].
  pose proof Hcs as [H1 H2 H3].
  destruct (_log_file s); cbn; by constructor.
Qed.

Lemma consistent_init_overall_task title total_phases start_phase :
  consistent (state_of (init_overall_task title total_phases start_phase s)).
Proof.
  pose proof Hcs as [H1 H2 H3]. pose proof (wf_handles _ Hwf) as Hh.
  fold (bar_shows (progress s) (overall_task s) (_overall_total s)
          (_overall_completed s)) in H2.
  fold (bar_total (progress s) (subtask s) (_subtask_total s)) in H3.
  unfold init_overall_task. munfold.
  destruct (_live_started s) eqn:Hst; cbn; [|done].
  assert (Hkeep : ∀ id p', add_task ("[cyan]" +:+ title) total_phases
                     (inject_Z start_phase) "" (progress s) = (id, p') →
            consistent (set__overall_completed (inject_Z start_phase)
              (set__overall_total total_phases
                 (set_overall_task (Some id) (set_progress p' s))))).
  { intros id p' Ha. apply consistent_intro; cbn; [congruence| |].
    - by eapply bar_shows_new.
    - eapply bar_total_add; [done| |done].
      intros i Hi. eapply (handle_below _ _ _ (subtask s)); [exact Hh|by right|done]. }
  destruct (overall_task s) as [[|j]|] eqn:Ho; cbn.
  - destruct (add_task _ _ _ _ (progress s)) as [id p'] eqn:Ha; cbn. eauto.
  - destruct (remove_task (S j) (progress s)) as [e|p] eqn:Hrm; cbn; [done|].
    destruct (add_task _ _ _ _ p) as [id p'] eqn:Ha; cbn.
    apply consistent_intro; cbn; [congruence| |].
    + by eapply bar_shows_new.
    + assert (Hne : subtask s ≠ Some (S j)).
      { intros Hs. by eapply (ho_distinct _ _ _ Hh). }
      eapply bar_total_add; [by eapply bar_total_remove| |done].
      intros i Hi. apply remove_task_inr in Hrm as (_ & _ & ->).
      eapply (handle_below _ _ _ (subtask s)); [exact Hh|by right|done].
  - destruct (add_task _ _ _ _ (progress s)) as [id p'] eqn:Ha; cbn. eauto.
Qed.

Lemma consistent_init_subtask title total_tasks :
  consistent (state_of (init_subtask title total_tasks s)).
Proof.
  pose proof Hcs as [H1 H2 H3]. pose proof (wf_handles _ Hwf) as Hh.
  fold (bar_shows (progress s) (overall_task s) (_overall_total s)
          (_overall_completed s)) in H2.
  fold (bar_total (progress s) (subtask s) (_subtask_total s)) in H3.
  unfold init_subtask. munfold.
  destruct (_live_started s) eqn:Hst; cbn; [|done].
  destruct (Z.leb_spec total_tasks 0); cbn; [done|].
  assert (Hkeep : ∀ id p', add_task ("[green]" +:+ title) total_tasks 0 ""
                     (progress s) = (id, p') →
            consistent (set__subtask_completed 0
              (set__subtask_total total_tasks
                 (set_subtask (Some id) (set_progress p' s))))).
  { intros id p' Ha. apply consistent_intro; cbn; [congruence| |].
    - eapply bar_shows_add; [done| |done].
      intros i Hi.
      eapply (handle_below _ _ _ (overall_task s)); [exact Hh|by left|done].
    - by eapply bar_total_new. }
  destruct (subtask s) as [[|j]|] eqn:Hs; cbn.
  - destruct (add_task _ _ _ _ (progress s)) as [id p'] eqn:Ha; cbn. eauto.
  - destruct (remove_task (S j) (progress s)) as [e|p] eqn:Hrm; cbn; [done|].
    destruct (add_task _ _ _ _ p) as [id p'] eqn:Ha; cbn.
    apply consistent_intro; cbn; [congruence| |].
    + assert (Hne : overall_task s ≠ Some (S j)).
      { intros Ho. by eapply (ho_distinct _ _ _ Hh). }
      eapply bar_shows_add; [by eapply bar_shows_remove| |done].
      intros i Hi. apply remove_task_inr in Hrm as (_ & _ & ->).
      eapply (handle_below _ _ _ (overall_task s)); [exact Hh|by left|done].
    + by eapply bar_total_new.
  - destruct (add_task _ _ _ _ (progress s)) as [id p'] eqn:Ha; cbn. eauto.
Qed.
End consistent_preservation.

Section consistent_preservation_progress.
Variable s : State.
Hypothesis Hwf : wf s.
Hypothesis Hcs : consistent s.

Lemma consistent_update_progress step info :
  consistent (state_of (update_progress step info s)).
Proof.
  unfold update_progress. munfold.
  destruct (_live_started s) eqn:Hst; cbn; [|done].
  pose proof Hcs as [H1 H2 H3]. pose proof (wf_handles _ Hwf) as Hh.
  fold (bar_shows (progress s) (overall_task s) (_overall_total s)
          (_overall_completed s)) in H2.
  fold (bar_total (progress s) (subtask s) (_subtask_total s)) in H3.
  destruct (update (subtask s) _ _ (progress s)) as [e|p] eqn:Hu; cbn; [done|].
  assert (H2' : bar_shows p (overall_task s) (_overall_total s)
                  (_overall_completed s)).
  { pose proof Hu as (i & t & Hi & _)%update_inr. rewrite Hi in Hu.
    eapply bar_shows_update_other; [done| |done].
    intros Ho. by eapply (ho_distinct _ _ _ Hh). }
  assert (H3' : bar_total p (subtask s) (_subtask_total s))
    by (by eapply bar_total_update).
  destruct (truediv step (_subtask_total s)) as [e|adv]; cbn.
  { by apply consistent_intro. }
  destruct (update (overall_task s) _ _ p) as [e|p'] eqn:Hu'; cbn.
  { by apply consistent_intro. }
  apply consistent_intro; cbn; [done| |].
  - by eapply bar_shows_update_same.
  - by eapply bar_total_update.
Qed.

Lemma consistent_complete : consistent (state_of (complete s)).
Proof.
  unfold complete. munfold.
  destruct (_live_started s) eqn:Hst; cbn; [|done].
  pose proof Hcs as [H1 H2 H3]. pose proof (wf_handles _ Hwf) as Hh.
  fold (bar_shows (progress s) (overall_task s) (_overall_total s)
          (_overall_completed s)) in H2.
  fold (bar_total (progress s) (subtask s) (_subtask_total s)) in H3.
  assert (Hkeep : consistent
            (set_layout_live_info "[bold green]All Tasks Finished![/]" s))
    by (by apply consistent_intro).
  destruct (subtask s) as [[|i]|] eqn:Hs; cbn.
  - destruct (overall_task s) as [[|j]|] eqn:Ho; cbn; [done| |done].
    destruct (remove_task (S j) (progress s)) as [e|p] eqn:Hrm; cbn; [done|].
    apply consistent_intro; cbn; rewrite ?Hs; [done|apply bar_shows_None|].
    eapply bar_total_remove; [exact H3| |exact Hrm]; discriminate.
  - destruct (remove_task (S i) (progress s)) as [e|p] eqn:Hrm; cbn; [done|].
    assert (H2' : bar_shows p (overall_task s) (_overall_total s)
                    (_overall_completed s)).
    { eapply bar_shows_remove; [done| |done].
      intros Ho. by eapply (ho_distinct _ _ _ Hh). }
    destruct (overall_task s) as [[|j]|] eqn:Ho; cbn.
    + apply consistent_intro; cbn; rewrite ?Ho; [done|done|apply bar_total_None].
    + destruct (remove_task (S j) p) as [e|p'] eqn:Hrm'; cbn.
      * apply consistent_intro; cbn; rewrite ?Ho; [done|done|apply bar_total_None].
      * apply consistent_intro; cbn;
          [done|apply bar_shows_None|apply bar_total_None].
    + apply consistent_intro; cbn; rewrite ?Ho; [done|done|apply bar_total_None].
  - destruct (overall_task s) as [[|j]|] eqn:Ho; cbn; [done| |done].
    destruct (remove_task (S j) (progress s)) as [e|p] eqn:Hrm; cbn; [done|].
    apply consistent_intro; cbn; rewrite ?Hs; [done|apply bar_shows_None|].
    apply bar_total_None.
Qed.
End consistent_preservation_progress.

Lemma consistent_stop s success :
  wf s → consistent s → consistent (state_of (stop success s)).
Proof.
  intros Hwf Hcs. unfold stop. munfold.
  destruct (_live_started s) eqn:Hstarted; cbn; [|done].
  destruct (complete_ok s Hwf) as [Hr Hwf1].
  pose proof (consistent_complete s Hwf Hcs) as Hcs1.
  pose proof (complete_live_started s) as Hl1.
  destruct (complete s) as [[] s1|e s1]; cbn in *; [clear Hr|done].
  rewrite Hstarted in Hl1.
  destruct Hwf1 as [_ _ H3 _ _]. destruct Hcs1 as [_ C2 C3].
  destruct (H3 Hl1) as [[t Ht] [f Hf]].
  rewrite Hf. cbn. rewrite Ht. cbn. rewrite Ht. cbn.
  by constructor.
Qed.

Lemma consistent_call o s : wf s → consistent s → consistent (state_of (call o s)).
Proof.
  intros Hwf Hcs. destruct o; cbn.
  - by apply consistent_start.
  - by apply consistent_stop.
  - by apply consistent_complete.
  - by apply consistent_init_overall_task.
  - by apply consistent_init_subtask.
  - by apply consistent_update_progress.
  - by apply consistent_update_live_info.
  - by apply consistent_update_static_info.
Qed.

Lemma consistent_run ops : ∀ s, wf s → consistent s → consistent (run ops s).
Proof.
  induction ops as [|o ops IH]; intros s Hwf Hcs; cbn; [done|].
  apply IH; [by apply wf_call|by apply consistent_call].
Qed.

Lemma consistent_init filename max_static_lines clock s0 :
  __init__ filename max_static_lines clock = inr s0 → consistent s0.
Proof.
  unfold __init__. destruct (deque_new max_static_lines); [done|].
  intros [= <-]. by constructor.
Qed.

Lemma reachable_consistent s : reachable s → consistent s.
Proof.
  intros (fn & n & clk & s0 & ops & Hinit & ->).
  eapply consistent_run; [by eapply wf_init|by eapply consistent_init].
Qed.

(** ** Invariants of a monitor *)



(** X5.  Whatever calls were made on a monitor, each handle it holds
    names a bar of the task table, the two handles name different bars,
    every bar has an id below the next id to hand out, and a monitor
    that holds a subtask handle has a positive stored subtask total. *)
Theorem X5_handles_name_bars (s : State) :
  reachable s →
  (∀ i, overall_task s = Some i ∨ subtask s = Some i →
        is_Some (_tasks (progress s) !! i))
  ∧ (∀ i j, overall_task s = Some i → subtask s = Some j → i ≠ j)
  ∧ (∀ i, is_Some (_tasks (progress s) !! i) →
          (i < _task_index (progress s))%nat)
  ∧ (is_Some (subtask s) → 0 < _subtask_total s).
Proof.
  intros [[Ho Hs Hf Hd] Ht _ _ _]%reachable_wf.
  split; [|done]. intros i [Hi|Hi]; eauto.
Qed.

Lemma X5_witness :
  reachable sample_running
  ∧ (∀ i, overall_task sample_running = Some i ∨ subtask sample_running = Some i →
          is_Some (_tasks (progress sample_running) !! i))
  ∧ (∀ i j, overall_task sample_running = Some i →
            subtask sample_running = Some j → i ≠ j)
  ∧ (∀ i, is_Some (_tasks (progress sample_running) !! i) →
          (i < _task_index (progress sample_running))%nat)
  ∧ (is_Some (subtask sample_running) → 0 < _subtask_total sample_running).
Proof.
  split; [exact sample_running_reachable|].
  exact (X5_handles_name_bars _ sample_running_reachable).
Defined.

(** X6.  Whatever calls were made on a monitor, the bar its overall
    handle names shows exactly the stored overall total and the stored
    overall completed figure, and the bar its subtask handle names has
    the stored subtask total. *)
Theorem X6_bars_show_stored_figures (s : State) :
  reachable s →
  (∀ o, overall_task s = Some o →
     ∃ t, _tasks (progress s) !! o = Some t
       ∧ task_total t = _overall_total s
       ∧ task_completed t = _overall_completed s)
  ∧ (∀ i, subtask s = Some i →
       ∃ t, _tasks (progress s) !! i = Some t
         ∧ task_total t = _subtask_total s).
Proof. by intros [_ C2 C3]%reachable_consistent. Qed.

Lemma X6_witness :
  reachable sample_running
  ∧ (∀ o, overall_task sample_running = Some o →
       ∃ t, _tasks (progress sample_running) !! o = Some t
         ∧ task_total t = _overall_total sample_running
         ∧ task_completed t = _overall_completed sample_running)
  ∧ (∀ i, subtask sample_running = Some i →
       ∃ t, _tasks (progress sample_running) !! i = Some t
         ∧ task_total t = _subtask_total sample_running).
Proof.
  split; [exact sample_running_reachable|].
  exact (X6_bars_show_stored_figures _ sample_running_reachable).
Defined.

Lemma call_maxlen o : preserves (λ s, maxlen (static_content s)) (call o).
Proof.
  destruct o; cbn;
    [unfold start | unfold stop, complete | unfold complete
    | unfold init_overall_task | unfold init_subtask | unfold update_progress
    | unfold update_live_info, _log_to_file
    | unfold update_static_info, _log_to_file]; frame.
Qed.

Lemma run_maxlen ops : ∀ s,
  maxlen (static_content (run ops s)) = maxlen (static_content s).
Proof.
  induction ops as [|o ops IH]; intros s; cbn; [done|].
  rewrite IH. apply (call_maxlen o s).
Qed.

(** X7.  The constructor refuses a negative history capacity; otherwise
    the capacity of the history buffer stays the one given to the
    constructor and the buffer never holds more lines than that,
    whatever calls are made. *)
Theorem X7_history_is_bounded (filename : string) (max_static_lines : Z)
    (clock : nat → datetime) (ops : list op) :
  match __init__ filename max_static_lines clock with
  | inl e =>
      max_static_lines < 0 ∧ e = ValueError "maxlen must be non-negative"
  | inr s0 =>
      0 ≤ max_static_lines
      ∧ maxlen (static_content (run ops s0)) = Z.to_nat max_static_lines
      ∧ (length (items (static_content (run ops s0)))
         ≤ Z.to_nat max_static_lines)%nat
  end.
Proof.
  destruct (__init__ filename max_static_lines clock) as [e|s0] eqn:Hinit.
  - revert Hinit. unfold __init__, deque_new.
    destruct (Z.ltb_spec max_static_lines 0); [|done]. by intros [= <-].
  - pose proof (wf_bounded _ (wf_run ops s0 (wf_init _ _ _ _ Hinit))) as Hb.
    rewrite run_maxlen in Hb |- *.
    revert Hinit Hb. unfold __init__, deque_new.
    destruct (Z.ltb_spec max_static_lines 0); [done|]. by intros [= <-].
Qed.

(** ** What the methods do on a started monitor *)

Lemma init_overall_task_ok s title total_phases start_phase :
  wf s → _live_started s = true →
  ∃ s', init_overall_task title total_phases start_phase s = Ok tt s'
    ∧ overall_task s' = Some (_task_index (progress s))
    ∧ overall_task s ≠ Some (_task_index (progress s))
    ∧ _tasks (progress s') !! _task_index (progress s)
      = Some (mkTask ("[cyan]" +:+ title) total_phases (inject_Z start_phase) "")
    ∧ (∀ j, overall_task s = Some (S j) → _tasks (progress s') !! S j = None)
    ∧ subtask s' = subtask s
    ∧ (∀ i, subtask s = Some i →
            _tasks (progress s') !! i = _tasks (progress s) !! i)
    ∧ counters s'
      = (total_phases, inject_Z start_phase, _subtask_total s, _subtask_completed s)
    ∧ _live_started s' = true
    ∧ written s' = written s.
Proof.
  intros Hwf Hst. pose proof Hwf as [H1 H2 H3 H4 H5].
  assert (Hfresh : ∀ j, is_Some (_tasks (progress s) !! j) →
                        j ≠ _task_index (progress s)).
  { intros j Hj%(ho_fresh _ _ _ H1). lia. }
  assert (Hov : overall_task s ≠ Some (_task_index (progress s))).
  { intros Ho. by eapply Hfresh; [eapply ho_overall|]. }
  unfold init_overall_task. munfold. rewrite Hst; cbn.
  destruct (overall_task s) as [[|j]|] eqn:Ho; cbn.
  - rewrite add_task_spec; cbn. eexists. split; [done|]. cbn.
    repeat (split; [done|]). split; [by rewrite lookup_insert_eq|].
    split; [done|]. split; [done|]. split; [|done].
    intros i Hi. rewrite lookup_insert_ne; [done|].
    intros Heq. by eapply Hfresh; [eapply ho_subtask|].
  - destruct (remove_task (S j) (progress s)) as [e|p] eqn:Hrm; cbn.
    { apply remove_task_inl in Hrm as [Hrm _].
      destruct (ho_overall _ _ _ H1 (S j) eq_refl) as [t Ht]. congruence. }
    apply remove_task_inr in Hrm as (Hin & Hpt & Hpi).
    rewrite add_task_spec; cbn. rewrite Hpi, Hpt.
    eexists. split; [done|]. cbn.
    repeat (split; [done|]). split; [by rewrite lookup_insert_eq|].
    split.
    { intros k Hk. simplify_eq.
      rewrite lookup_insert_ne by (intros Heq; by eapply Hfresh).
      apply lookup_delete_eq. }
    split; [done|]. split; [|done].
    intros i Hi. rewrite lookup_insert_ne.
    + apply lookup_delete_ne. intros Heq. by eapply (ho_distinct _ _ _ H1).
    + intros Heq. by eapply Hfresh; [eapply ho_subtask|].
  - rewrite add_task_spec; cbn. eexists. split; [done|]. cbn.
    repeat (split; [done|]). split; [by rewrite lookup_insert_eq|].
    split; [done|]. split; [done|]. split; [|done].
    intros i Hi. rewrite lookup_insert_ne; [done|].
    intros Heq. by eapply Hfresh; [eapply ho_subtask|].
Qed.

(** X8.  On a started monitor [init_overall_task] always succeeds: a
    new bar with the given total and start value becomes the overall
    task, the stored overall figures are set to them, an old overall bar
    with a non-zero id is taken out of the table, and the subtask, its
    bar and its stored figures are left alone. *)
Theorem X8_init_overall_task_replaces (s : State) (title : string)
    (total_phases start_phase : Z) :
  reachable s → _live_started s = true →
  ∃ s' new,
    init_overall_task title total_phases start_phase s = Ok tt s'
    ∧ overall_task s' = Some new ∧ overall_task s ≠ Some new
    ∧ _tasks (progress s') !! new
      = Some {| task_description := "[cyan]" +:+ title;
                task_total := total_phases;
                task_completed := inject_Z start_phase;
                task_info := "" |}
    ∧ (∀ j, overall_task s = Some (S j) → _tasks (progress s') !! S j = None)
    ∧ _overall_total s' = total_phases
    ∧ _overall_completed s' = inject_Z start_phase
    ∧ subtask s' = subtask s
    ∧ (∀ i, subtask s = Some i →
            _tasks (progress s') !! i = _tasks (progress s) !! i)
    ∧ _subtask_total s' = _subtask_total s
    ∧ _subtask_completed s' = _subtask_completed s.
Proof.
  intros Hwf%reachable_wf Hst.
  destruct (init_overall_task_ok s title total_phases start_phase Hwf Hst)
    as (s' & Hrun & Ho & Hne & Hbar & Hold & Hsub & Hsb & Hc & _ & _).
  injection Hc as Hot Hoc Hstt Hsc.
  exists s', (_task_index (progress s)). by repeat (split; [done|]).
Qed.

Lemma X8_witness :
  reachable sample_running ∧ _live_started sample_running = true
  ∧ ∃ s' new,
      init_overall_task "Q" 5 1 sample_running = Ok tt s'
      ∧ overall_task s' = Some new ∧ overall_task sample_running ≠ Some new
      ∧ _tasks (progress s') !! new
        = Some {| task_description := "[cyan]" +:+ "Q";
                  task_total := 5;
                  task_completed := inject_Z 1;
                  task_info := "" |}
      ∧ (∀ j, overall_task sample_running = Some (S j) →
              _tasks (progress s') !! S j = None)
      ∧ _overall_total s' = 5
      ∧ _overall_completed s' = inject_Z 1
      ∧ subtask s' = subtask sample_running
      ∧ (∀ i, subtask sample_running = Some i →
              _tasks (progress s') !! i = _tasks (progress sample_running) !! i)
      ∧ _subtask_total s' = _subtask_total sample_running
      ∧ _subtask_completed s' = _subtask_completed sample_running.
Proof.
  assert (H1 : reachable sample_running) by exact sample_running_reachable.
  assert (H2 : _live_started sample_running = true) by reflexivity.
  split; [exact H1|]. split; [exact H2|].
  exact (X8_init_overall_task_replaces sample_running "Q" 5 1 H1 H2).
Defined.





(** ** Exceptions *)


Lemma update_progress_no_overall s step info i :
  wf s → _live_started s = true → subtask s = Some i → overall_task s = None →
  ∃ p, update (Some i) (inject_Z step) (Some info) (progress s) = inr p
    ∧ update_progress step info s = Raise (KeyError None) (set_progress p s).
Proof.
  intros Hwf Hst Hs Ho. pose proof (wf_handles _ Hwf) as Hh.
  destruct (update_is_inr i (inject_Z step) (Some info) (progress s)) as [p Hp];
    [by eapply ho_subtask|].
  exists p. split; [done|].
  assert (Hpos : 0 < _subtask_total s) by (apply (wf_total _ Hwf); rewrite Hs; eauto).
  unfold update_progress. munfold. rewrite Hst; cbn. rewrite Hs, Hp; cbn.
  rewrite (truediv_pos _ _ Hpos); cbn. by rewrite Ho, update_None.
Qed.

(** X10.  On a started monitor that has a subtask but no overall task,
    [update_progress] raises [KeyError] half way: the subtask bar has
    already advanced by the step and taken the info text, while the
    stored figures, the handles and everything else are as before, so
    bar and stored subtask count then differ by the step. *)
Theorem X10_update_progress_without_overall (s : State) (step : Z)
    (info : string) (i : nat) (t : Task) :
  reachable s → _live_started s = true →
  subtask s = Some i → overall_task s = None →
  _tasks (progress s) !! i = Some t →
  ∃ s', update_progress step info s = Raise (KeyError None) s'
    ∧ _tasks (progress s') !! i
      = Some {| task_description := task_description t;
                task_total := task_total t;
                task_completed := (task_completed t + inject_Z step)%Q;
                task_info := info |}
    ∧ counters s' = counters s
    ∧ subtask s' = subtask s ∧ overall_task s' = overall_task s
    ∧ written s' = written s.
Proof.
  intros Hwf%reachable_wf Hst Hs Ho Ht.
  destruct (update_progress_no_overall s step info i Hwf Hst Hs Ho)
    as (p & Hp & Hrun).
  eexists. split; [exact Hrun|]. cbn. split; [|done].
  apply update_inr in Hp as (? & t' & [= <-] & Ht' & -> & _).
  rewrite lookup_insert_eq. assert (t' = t) as -> by congruence. done.
Qed.

Lemma X10_witness :
  reachable (run [Start; InitSubtask "A" 4] sample_monitor)
  ∧ _live_started (run [Start; InitSubtask "A" 4] sample_monitor) = true
  ∧ subtask (run [Start; InitSubtask "A" 4] sample_monitor) = Some 0%nat
  ∧ overall_task (run [Start; InitSubtask "A" 4] sample_monitor) = None
  ∧ _tasks (progress (run [Start; InitSubtask "A" 4] sample_monitor)) !! 0%nat
    = Some (mkTask "[green]A" 4 0 "")
  ∧ ∃ s', update_progress 3 "go" (run [Start; InitSubtask "A" 4] sample_monitor)
          = Raise (KeyError None) s'
      ∧ _tasks (progress s') !! 0%nat
        = Some {| task_description := task_description (mkTask "[green]A" 4 0 "");
                  task_total := task_total (mkTask "[green]A" 4 0 "");
                  task_completed :=
                    (task_completed (mkTask "[green]A" 4 0 "") + inject_Z 3)%Q;
                  task_info := "go" |}
      ∧ counters s' = counters (run [Start; InitSubtask "A" 4] sample_monitor)
      ∧ subtask s' = subtask (run [Start; InitSubtask "A" 4] sample_monitor)
      ∧ overall_task s'
        = overall_task (run [Start; InitSubtask "A" 4] sample_monitor)
      ∧ written s' = written (run [Start; InitSubtask "A" 4] sample_monitor).
Proof.
  assert (H1 : reachable (run [Start; InitSubtask "A" 4] sample_monitor))
    by exact (sample_reachable _).
  assert (H2 : _live_started (run [Start; InitSubtask "A" 4] sample_monitor) = true)
    by reflexivity.
  assert (H3 : subtask (run [Start; InitSubtask "A" 4] sample_monitor) = Some 0%nat)
    by reflexivity.
  assert (H4 : overall_task (run [Start; InitSubtask "A" 4] sample_monitor) = None)
    by reflexivity.
  assert (H5 : _tasks (progress (run [Start; InitSubtask "A" 4] sample_monitor))
               !! 0%nat = Some (mkTask "[green]A" 4 0 ""))
    by (vm_compute; reflexivity).
  repeat (split; [assumption|]).
  exact (X10_update_progress_without_overall _ 3 "go" 0%nat _ H1 H2 H3 H4 H5).
Defined.






(** ** Starting, completing and stopping *)

Lemma set_layout_live_info_same s :
  set_layout_live_info (layout_live_info s) s = s.
Proof. by destruct s. Qed.

Lemma complete_not_started s : _live_started s = false → complete s = Ok tt s.
Proof. intros Hst. unfold complete. munfold. by rewrite Hst. Qed.

(** [complete] on a started monitor: it returns, shows the closing text
    and leaves no truthy handle. *)
Lemma complete_started s :
  wf s → _live_started s = true →
  ∃ s', complete s = Ok tt s'
    ∧ layout_live_info s' = finished_text
    ∧ truthy (subtask s') = false ∧ truthy (overall_task s') = false.
Proof.
  intros Hwf Hst. pose proof (wf_handles _ Hwf) as H1.
  unfold complete. munfold. rewrite Hst; cbn.
  destruct (subtask s) as [[|i]|] eqn:Hs; cbn.
  - destruct (overall_task s) as [[|j]|] eqn:Ho; cbn;
      [eexists; split; [done|]; cbn; by rewrite Hs, Ho| |
       eexists; split; [done|]; cbn; by rewrite Hs, Ho].
    destruct (remove_task (S j) (progress s)) as [e|p] eqn:Hr; cbn.
    + apply remove_task_inl in Hr as [Hr _].
      destruct (ho_overall _ _ _ H1 (S j) eq_refl) as [t Ht]. congruence.
    + eexists; split; [done|]; cbn; by rewrite Hs.
  - destruct (remove_task (S i) (progress s)) as [e|p] eqn:Hr; cbn.
    { apply remove_task_inl in Hr as [Hr _].
      destruct (ho_subtask _ _ _ H1 (S i) eq_refl) as [t Ht]. congruence. }
    assert (H1' : handles_ok p (overall_task s) None)
      by (by eapply handles_ok_remove_subtask).
    destruct (overall_task s) as [[|j]|] eqn:Ho; cbn;
      [eexists; split; [done|]; cbn; by rewrite Ho| |
       eexists; split; [done|]; cbn; by rewrite Ho].
    destruct (remove_task (S j) p) as [e|p'] eqn:Hr'; cbn.
    + apply remove_task_inl in Hr' as [Hr' _].
      destruct (ho_overall _ _ _ H1' (S j) eq_refl) as [t Ht]. congruence.
    + by eexists.
  - destruct (overall_task s) as [[|j]|] eqn:Ho; cbn;
      [eexists; split; [done|]; cbn; by rewrite Hs, Ho| |
       eexists; split; [done|]; cbn; by rewrite Hs, Ho].
    destruct (remove_task (S j) (progress s)) as [e|p] eqn:Hr; cbn.
    + apply remove_task_inl in Hr as [Hr _].
      destruct (ho_overall _ _ _ H1 (S j) eq_refl) as [t Ht]. congruence.
    + eexists; split; [done|]; cbn; by rewrite Hs.
Qed.

Lemma complete_again s :
  _live_started s = true → layout_live_info s = finished_text →
  truthy (subtask s) = false → truthy (overall_task s) = false →
  complete s = Ok tt s.
Proof.
  intros Hst Hl Hs Ho. unfold finished_text in Hl.
  unfold complete. munfold. rewrite Hst; cbn.
  destruct (subtask s) as [[|i]|] eqn:Es; cbn in Hs; try discriminate;
    destruct (overall_task s) as [[|j]|] eqn:Eo; cbn in Ho; try discriminate;
    cbn; rewrite ?Es, ?Eo; cbn; rewrite ?Eo; cbn;
    by rewrite <- Hl, set_layout_live_info_same.
Qed.

(** X12.  [complete] is idempotent: on any monitor a session can
    produce, a second [complete] right after the first returns without
    changing anything. *)
Theorem X12_complete_is_idempotent (s : State) :
  reachable s →
  ∃ s', complete s = Ok tt s' ∧ complete s' = Ok tt s'.
Proof.
  intros Hwf%reachable_wf. destruct (_live_started s) eqn:Hst.
  - destruct (complete_started s Hwf Hst) as (s' & Hrun & Hl & Hs & Ho).
    exists s'. split; [done|]. apply complete_again; try done.
    pose proof (complete_live_started s) as Hl'. rewrite Hrun in Hl'. cbn in Hl'.
    congruence.
  - exists s. by rewrite complete_not_started.
Qed.

Lemma X12_witness :
  reachable sample_running
  ∧ ∃ s', complete sample_running = Ok tt s' ∧ complete s' = Ok tt s'.
Proof.
  split; [exact sample_running_reachable|].
  exact (X12_complete_is_idempotent _ sample_running_reachable).
Defined.








(** ** The history buffer and its tail *)

(** X15.  Pushing any lines into a buffer that is within its capacity
    leaves the last [maxlen] lines of what it held followed by what was
    pushed, in order, and the same capacity: everything when that fits,
    nothing when the capacity is 0. *)
Theorem X15_push_keeps_last_of_old_and_new (d : deque) (lines : list string) :
  (length (items d) ≤ maxlen d)%nat →
  items (push_all lines d)
  = drop (length (items d ++ lines) - maxlen d) (items d ++ lines)
  ∧ maxlen (push_all lines d) = maxlen d
  ∧ ((length (items d ++ lines) ≤ maxlen d)%nat →
       items (push_all lines d) = items d ++ lines)
  ∧ (maxlen d = 0%nat → items (push_all lines d) = []).
Proof.
  intros Hb. destruct (push_all_items lines d Hb) as [Hi Hm].
  split; [done|]. split; [done|]. split.
  - intros Hfit. rewrite Hi.
    by replace (length (items d ++ lines) - maxlen d)%nat with 0%nat by lia.
  - intros H0. rewrite Hi, H0, Nat.sub_0_r. apply drop_all.
Qed.

Lemma X15_witness :
  (length (items {| items := ["a"; "b"]%string; maxlen := 3 |})
   ≤ maxlen {| items := ["a"; "b"]%string; maxlen := 3 |})%nat
  ∧ items (push_all ["c"; "d"]%string {| items := ["a"; "b"]%string; maxlen := 3 |})
    = ["b"; "c"; "d"]%string.
Proof.
  assert (H1 : (length (items {| items := ["a"; "b"]%string; maxlen := 3 |})
                ≤ maxlen {| items := ["a"; "b"]%string; maxlen := 3 |})%nat)
    by (cbn; lia).
  split; [exact H1|].
  exact (proj1 (X15_push_keeps_last_of_old_and_new
                  {| items := ["a"; "b"]%string; maxlen := 3 |}
                  ["c"; "d"]%string H1)).
Defined.

(** X16.  A viewport that is not taller than the capacity never notices
    the eviction: after any pushes, [TailText] shows the same lines as it
    would over a history that had kept everything. *)
Theorem X16_tail_does_not_see_eviction (d : deque) (lines : list string) (H : Z) :
  (length (items d) ≤ maxlen d)%nat → Z.max 1 H ≤ Z.of_nat (maxlen d) →
  TailText.display_lines (push_all lines d) (Some H)
  = TailText.display_lines
      {| items := items d ++ lines; maxlen := length (items d ++ lines) |}
      (Some H).
Proof.
  intros Hb Hfit. destruct (push_all_items lines d Hb) as [Hi Hm].
  unfold TailText.display_lines. rewrite !slice_from_last by lia.
  rewrite Hi. cbn [items]. f_equal. rewrite drop_drop, length_drop. f_equal. lia.
Qed.

Lemma X16_witness :
  (length (items {| items := ["a"; "b"]%string; maxlen := 3 |})
   ≤ maxlen {| items := ["a"; "b"]%string; maxlen := 3 |})%nat
  ∧ Z.max 1 2 ≤ Z.of_nat (maxlen {| items := ["a"; "b"]%string; maxlen := 3 |})
  ∧ TailText.display_lines
      (push_all ["c"; "d"; "e"]%string {| items := ["a"; "b"]%string; maxlen := 3 |})
      (Some 2)
    = TailText.display_lines
        {| items := items {| items := ["a"; "b"]%string; maxlen := 3 |}
                    ++ ["c"; "d"; "e"]%string;
           maxlen := length (items {| items := ["a"; "b"]%string; maxlen := 3 |}
                             ++ ["c"; "d"; "e"]%string) |}
        (Some 2).
Proof.
  assert (H1 : (length (items {| items := ["a"; "b"]%string; maxlen := 3 |})
                ≤ maxlen {| items := ["a"; "b"]%string; maxlen := 3 |})%nat)
    by (cbn; lia).
  assert (H2 : Z.max 1 2
               ≤ Z.of_nat (maxlen {| items := ["a"; "b"]%string; maxlen := 3 |}))
    by (cbn; lia).
  split; [exact H1|]. split; [exact H2|].
  exact (X16_tail_does_not_see_eviction _ _ 2 H1 H2).
Defined.

(** ** Progress without clamping *)

(** X17.  [update_progress] never clamps.  In one subtask of [N] steps
    on a started monitor with an overall task, any run of steps, also
    negative ones or more than [N], succeeds; the stored subtask count
    ends at their sum and the stored overall figure has moved by their
    sum over [N], so both can pass their totals or fall below zero. *)
Theorem X17_progress_is_not_clamped (s : State) (title : string) (N : Z)
    (steps : list (Z * string)) :
  reachable s → _live_started s = true → is_Some (overall_task s) → 0 < N →
  ∃ s1 s2,
    init_subtask title N s = Ok tt s1
    ∧ advance_all steps s1 = Ok tt s2
    ∧ _subtask_completed s2 = sum_steps steps
    ∧ (_overall_completed s2
       == _overall_completed s + inject_Z (sum_steps steps) / inject_Z N)%Q
    ∧ _subtask_total s2 = N
    ∧ _overall_total s2 = _overall_total s.
Proof.
  intros Hwf%reachable_wf Hst [o Ho] HN.
  destruct (init_subtask_ok s title N Hwf Hst HN)
    as (s1 & Hinit & Hwf1 & Hst1 & Hsub1 & _ & _ & _ & Ho1 & _ & Hc1).
  injection Hc1 as Hot1 Hoc1 Hst1' Hsc1.
  assert (Hact : active s1 o (_task_index (progress s))).
  { constructor; [done|done|congruence|done]. }
  destruct (advance_all_active steps s1 _ _ Hact)
    as (s2 & Hrun & _ & Hst2 & Hot2 & Hsc2 & Hoc2 & _).
  exists s1, s2. split; [done|]. split; [done|].
  split; [lia|]. split; [by rewrite Hoc2, Hoc1, Hst1'|].
  split; congruence.
Qed.

Lemma X17_witness :
  reachable sample_started ∧ _live_started sample_started = true
  ∧ is_Some (overall_task sample_started) ∧ 0 < 4
  ∧ ∃ s1 s2,
      init_subtask "A" 4 sample_started = Ok tt s1
      ∧ advance_all sample_steps s1 = Ok tt s2
      ∧ _subtask_completed s2 = sum_steps sample_steps
      ∧ (_overall_completed s2
         == _overall_completed sample_started
            + inject_Z (sum_steps sample_steps)
              / inject_Z 4)%Q
      ∧ _subtask_total s2 = 4
      ∧ _overall_total s2 = _overall_total sample_started.
Proof.
  assert (H1 : reachable sample_started) by exact sample_started_reachable.
  assert (H2 : _live_started sample_started = true) by reflexivity.
  assert (H3 : is_Some (overall_task sample_started)) by (vm_compute; eauto).
  assert (H4 : 0 < 4) by lia.
  repeat (split; [assumption|]).
  exact (X17_progress_is_not_clamped sample_started "A" 4 _ H1 H2 H3 H4).
Defined.

(** ** Blocks *)






(** ** Loops *)










